(** * moAlexaSkill: the MODecide skill handler (src/index.js)

    A shallow embedding of the Met Office Alexa skill.  The handlers of
    [index.js] are JavaScript functions that read an intent (a bag of
    slots), read and write [session.attributes], and answer through the
    [response] object.  They are embedded as computations in a monad that
    threads the session attributes and the log of answers, and that can
    end in a thrown JavaScript error.

    Layout:
    - [Js]: the JavaScript values the handlers touch, with [ToBoolean],
      [ToString] and property access;
    - [JsDate]: the arithmetic of ECMAScript [Date] objects (ES5 15.9.1);
    - the monad, the [response] object and the module scope of index.js;
    - the handlers, function by function, under their source names;
    - the properties. *)

From Stdlib Require Import ZArith String Ascii List Bool Lia Floats DecimalString.
From stdpp Require Import base gmap strings.

Open Scope string_scope.
Open Scope Z_scope.

(* ===================================================================== *)
(** ** JavaScript values *)
(* ===================================================================== *)

Module Js.

(** The values that flow through index.js.  Numbers are the integral
    date fields ([getMonth() + 1] and the like) or NaN, written [None];
    the one fractional number of the program, [rainProb], is kept as a
    binary64 float where it is used. *)
#[warnings="-register-all"]
Inductive Value : Type :=
| VUndefined
| VBool (b : bool)
| VNum (n : option Z)
| VStr (s : string)
| VObj (props : list (string * Value))
| VFun (name : string).

Inductive Error : Type :=
| ReferenceError (identifier : string)
| TypeError (base : Value) (property : string).

(** ToBoolean (ES5 9.2). *)
Definition ToBoolean (v : Value) : bool :=
  match v with
  | VUndefined => false
  | VBool b => b
  | VNum None => false
  | VNum (Some z) => negb (z =? 0)
  | VStr s => negb (String.eqb s "")
  | VObj _ => true
  | VFun _ => true
  end.

(** ToString of a number (ES5 9.8.1), on integers and NaN. *)
Definition NumberToString (n : option Z) : string :=
  match n with
  | None => "NaN"
  | Some z => NilZero.string_of_int (Z.to_int z)
  end.

(** ToString (ES5 9.8). *)
Definition ToString (v : Value) : string :=
  match v with
  | VUndefined => "undefined"
  | VBool true => "true"
  | VBool false => "false"
  | VNum n => NumberToString n
  | VStr s => s
  | VObj _ => "[object Object]"
  | VFun f => "function " +:+ f +:+ "() { [code] }"
  end.

Fixpoint assoc (k : string) (l : list (string * Value)) : option Value :=
  match l with
  | [] => None
  | (k', v) :: l' => if String.eqb k k' then Some v else assoc k l'
  end.

(** [base.property].  Reading a property of [undefined] throws a
    TypeError; a primitive has none of the properties index.js asks for
    ([error], [city], [displayDate]), so the read gives [undefined]. *)
Definition Get (base : Value) (property : string) : Value + Error :=
  match base with
  | VUndefined => inr (TypeError base property)
  | VObj props => inl (default VUndefined (assoc property props))
  | VStr s =>
      inl (if String.eqb property "length"
           then VNum (Some (Z.of_nat (String.length s)))
           else VUndefined)
  | VBool _ | VNum _ | VFun _ => inl VUndefined
  end.

(** [a < b] on numbers: false as soon as one side is NaN. *)
Definition NumberLt (a b : option Z) : bool :=
  match a, b with
  | Some x, Some y => x <? y
  | _, _ => false
  end.

Definition NumberAdd (a b : option Z) : option Z :=
  match a, b with
  | Some x, Some y => Some (x + y)
  | _, _ => None
  end.

End Js.

Export Js.

(* ===================================================================== *)
(** ** ECMAScript dates *)
(* ===================================================================== *)

Module JsDate.

(** The time value of a [Date]: milliseconds since 1 January 1970 UTC, or
    NaN ([None]) for an invalid date. *)
Definition TimeValue : Type := option Z.

Definition msPerDay : Z := 86400000.

(** Day(t) = floor(t / msPerDay) (ES5 15.9.1.2). *)
Definition Day (t : Z) : Z := t / msPerDay.

(** InLeapYear, on the year (ES5 15.9.1.3). *)
Definition isLeapYear (y : Z) : bool :=
  ((y mod 4 =? 0) && negb (y mod 100 =? 0)) || (y mod 400 =? 0).

Definition daysInMonth (y m : Z) : Z :=
  if m =? 2 then (if isLeapYear y then 29 else 28)
  else if (m =? 4) || (m =? 6) || (m =? 9) || (m =? 11) then 30
  else 31.

(** Day numbers of the proleptic Gregorian calendar, counted from
    1970-01-01.  The 400-year cycle (an era, 146097 days) starts on
    1 March of a year divisible by 400, so that a leap day is the last
    day of its shifted year; 719468 days separate 0000-03-01 from the
    epoch. *)

(** Day within the era of the date with shifted year [yoe] (0..399),
    month [m] (1..12) and day of month [d]. *)
Definition dayOfEra (yoe m d : Z) : Z :=
  let mp := if 2 <? m then m - 3 else m + 9 in
  let doy := (153 * mp + 2) / 5 + d - 1 in
  yoe * 365 + yoe / 4 - yoe / 100 + doy.

Definition daysFromCivil (y m d : Z) : Z :=
  let y' := if m <=? 2 then y - 1 else y in
  let era := y' / 400 in
  era * 146097 + dayOfEra (y' - era * 400) m d - 719468.

(** The inverse within an era: shifted year, month and day of month of
    the day [doe] (0..146096). *)
Definition civilOfEra (doe : Z) : Z * Z * Z :=
  let yoe := (doe - doe / 1460 + doe / 36524 - doe / 146096) / 365 in
  let doy := doe - (365 * yoe + yoe / 4 - yoe / 100) in
  let mp := (5 * doy + 2) / 153 in
  let d := doy - (153 * mp + 2) / 5 + 1 in
  let m := if mp <? 10 then mp + 3 else mp - 9 in
  (yoe, m, d).

(** Year, month (1..12) and day of month of a day number. *)
Definition civilFromDays (z : Z) : Z * Z * Z :=
  let z' := z + 719468 in
  let era := z' / 146097 in
  let '(yoe, m, d) := civilOfEra (z' - era * 146097) in
  let y := yoe + era * 400 in
  (if m <=? 2 then y + 1 else y, m, d).

(** YearFromTime, MonthFromTime (0..11) and DateFromTime (1..31) of
    ES5 15.9.1.3-5. *)
Definition YearFromTime (t : Z) : Z := (civilFromDays (Day t)).1.1.
Definition MonthFromTime (t : Z) : Z := (civilFromDays (Day t)).1.2 - 1.
Definition DateFromTime (t : Z) : Z := (civilFromDays (Day t)).2.

(** MakeDay and MakeDate (ES5 15.9.1.12-13); [month] counts from 0 and
    may overflow into the following years, [date] may overflow the month. *)
Definition MakeDay (year month date : Z) : Z :=
  daysFromCivil (year + month / 12) (month mod 12 + 1) 1 + date - 1.

Definition MakeDate (day time : Z) : Z := day * msPerDay + time.

(** *** The date-only forms of the Date Time String Format (ES5 15.9.1.15):
    [YYYY], [YYYY-MM] and [YYYY-MM-DD], read as UTC. *)

Definition digit (c : ascii) : option Z :=
  let n := Z.of_nat (nat_of_ascii c) in
  if (48 <=? n) && (n <=? 57) then Some (n - 48) else None.

Definition number2 (a b : ascii) : option Z :=
  x ← digit a; y ← digit b; Some (10 * x + y).

Definition number4 (a b c d : ascii) : option Z :=
  x ← number2 a b; y ← number2 c d; Some (100 * x + y).

Definition isHyphen (c : ascii) : bool := Ascii.eqb c "-".

Definition parseDateOnly (s : string) : option (Z * Z * Z) :=
  match list_ascii_of_string s with
  | [y1; y2; y3; y4] =>
      y ← number4 y1 y2 y3 y4; Some (y, 1, 1)
  | [y1; y2; y3; y4; h1; m1; m2] =>
      if isHyphen h1
      then y ← number4 y1 y2 y3 y4; m ← number2 m1 m2; Some (y, m, 1)
      else None
  | [y1; y2; y3; y4; h1; m1; m2; h2; d1; d2] =>
      if isHyphen h1 && isHyphen h2
      then y ← number4 y1 y2 y3 y4; m ← number2 m1 m2; d ← number2 d1 d2;
           Some (y, m, d)
      else None
  | _ => None
  end.

(** What the host decides: the offset of local time from UTC at a given
    instant (LocalTZA + DaylightSavingTA(t), in milliseconds), what
    [Date.parse] makes of a string that is not in the format above
    ("implementation-specific heuristics"), and the current time. *)
Record Host : Type := {
  localOffset : Z -> Z;
  parseFallback : string -> TimeValue;
  currentTime : Z
}.

(** [Date.parse] (ES5 15.9.4.2).  Month 01..12 and day 01..31 are the
    legal element values; an illegal one gives NaN.  A four-digit year
    keeps the result within the range of time values. *)
Definition parse (host : Host) (s : string) : TimeValue :=
  match parseDateOnly s with
  | Some (y, m, d) =>
      if (1 <=? m) && (m <=? 12) && (1 <=? d) && (d <=? 31)
      then Some (MakeDate (MakeDay y (m - 1) d) 0)
      else None
  | None => parseFallback host s
  end.

Definition LocalTime (host : Host) (t : Z) : Z := t + localOffset host t.

(** [date.getFullYear()], [date.getMonth()], [date.getDate()]: fields of
    the local time, NaN for an invalid date (ES5 15.9.5.10-14). *)
Definition getFullYear (host : Host) (date : TimeValue) : option Z :=
  match date with
  | Some t => Some (YearFromTime (LocalTime host t))
  | None => None
  end.

Definition getMonth (host : Host) (date : TimeValue) : option Z :=
  match date with
  | Some t => Some (MonthFromTime (LocalTime host t))
  | None => None
  end.

Definition getDate (host : Host) (date : TimeValue) : option Z :=
  match date with
  | Some t => Some (DateFromTime (LocalTime host t))
  | None => None
  end.

End JsDate.

(* ===================================================================== *)
(** ** The turn: session attributes, answers, thrown errors *)
(* ===================================================================== *)

(** An intent as the host passes it: [intent.slots] maps a slot name to a
    slot object, whose [value] may be missing.  The request envelope is
    taken to be well formed: [intent.slots] and [session.attributes] are
    objects. *)
Record Slot : Type := { value : option string }.

Record Intent : Type := {
  name : string;
  slots : gmap string Slot
}.

(** Modelled from the spec: the [response] object, whose module
    AlexaSkill.js is missing from the sources.  A handler answers by
    calling [response.ask] (speech and reprompt; the session continues)
    or [response.tellWithCard] (speech and card; the terminal directive,
    [shouldEndSession = true]).  The embedding records the calls. *)
Inductive Directive : Type :=
| Ask (speechOutput repromptText : string)
| TellWithCard (speechOutput cardTitle cardContent : string).

Definition shouldEndSession (d : Directive) : bool :=
  match d with
  | Ask _ _ => false
  | TellWithCard _ _ _ => true
  end.

Definition speech (d : Directive) : string :=
  match d with
  | Ask s _ => s
  | TellWithCard s _ _ => s
  end.

(** What a handler can change: [session.attributes], and the calls made
    on [response] so far. *)
Record World : Type := {
  attributes : gmap string Value;
  responses : list Directive
}.

Inductive Completion (A : Type) : Type :=
| Normal (a : A)
| Throw (e : Error).

Arguments Normal {A} a.
Arguments Throw {A} e.

(** A JavaScript computation: it runs in a world and completes normally
    or by throwing; what it wrote before throwing stays written. *)
Definition M (A : Type) : Type := World -> Completion A * World.

Definition ret {A} (a : A) : M A := fun w => (Normal a, w).

Definition throw {A} (e : Error) : M A := fun w => (Throw e, w).

Definition bind {A B} (c : M A) (k : A -> M B) : M B :=
  fun w =>
    match c w with
    | (Normal a, w') => k a w'
    | (Throw e, w') => (Throw e, w')
    end.

Declare Scope js_scope.
Delimit Scope js_scope with js.
Notation "x <- c ;; k" := (bind c (fun x => k))
  (at level 20, c at level 99, k at level 200, only parsing) : js_scope.
Notation "c ;; k" := (bind c (fun _ => k))
  (at level 100, k at level 200, only parsing, right associativity) : js_scope.

Definition liftGet (r : Value + Error) : M Value :=
  match r with
  | inl v => ret v
  | inr e => throw e
  end.

(** [base.property] as a computation. *)
Definition member (base : Value) (property : string) : M Value :=
  liftGet (Get base property).

(** [session.attributes.key] and [session.attributes.key = v]. *)
Definition getAttribute (key : string) : M Value :=
  fun w => (Normal (default VUndefined (attributes w !! key)), w).

Definition setAttribute (key : string) (v : Value) : M unit :=
  fun w => (Normal tt, {| attributes := <[key := v]> (attributes w);
                          responses := responses w |}).

Definition respond (d : Directive) : M unit :=
  fun w => (Normal tt, {| attributes := attributes w;
                          responses := responses w ++ [d] |}).

Definition ask (speechOutput repromptText : string) : M unit :=
  respond (Ask speechOutput repromptText).

Definition tellWithCard (speechOutput cardTitle cardContent : string) : M unit :=
  respond (TellWithCard speechOutput cardTitle cardContent).

(* ===================================================================== *)
(** ** The scope of index.js *)
(* ===================================================================== *)

(** The identifiers a function of index.js can resolve besides its own
    parameters and [var]s: what the module declares at top level (its
    [var]s and its function declarations, which are hoisted), what the
    module wrapper of the host binds, and the built-ins the file uses. *)
Definition moduleScope : list (string * Value) :=
  [ ("APP_ID", VUndefined);
    ("http", VObj []);
    ("alexaDateUtil", VObj []);
    ("AlexaSkill", VFun "AlexaSkill");
    ("MODecide", VFun "MODecide");
    ("handleWelcomeRequest", VFun "handleWelcomeRequest");
    ("handleHelpRequest", VFun "handleHelpRequest");
    ("handleCityDialogRequest", VFun "handleCityDialogRequest");
    ("handleDateDialogRequest", VFun "handleDateDialogRequest");
    ("handleNoSlotDialogRequest", VFun "handleNoSlotDialogRequest");
    ("handleOneshotUmbrellaRequest", VFun "handleOneshotUmbrellaRequest");
    ("getUmbrellaDecisionResponse", VFun "getUmbrellaDecisionResponse");
    ("getFinalUmbrellaResponse", VFun "getFinalUmbrellaResponse");
    ("makeDataPointRequest", VFun "makeDataPointRequest");
    ("getLocationFromIntent", VFun "getLocationFromIntent");
    ("getDateFromIntent", VFun "getDateFromIntent");
    ("exports", VObj []);
    ("require", VFun "require");
    ("module", VObj []);
    ("console", VObj []);
    ("Object", VFun "Object");
    ("Date", VFun "Date") ].

(** GetValue of an identifier reference (ES5 8.7.1) in a scope: an
    unresolvable reference throws a ReferenceError. *)
Definition GetValueIn (scope : list (string * Value)) (identifier : string) : M Value :=
  match assoc identifier scope with
  | Some v => ret v
  | None => throw (ReferenceError identifier)
  end.

(** A call [f()] through an identifier, for the callees that have no
    embedding of their own: the identifier is resolved first, before any
    argument is looked at, and what it yields must be callable.  No
    identifier called this way is declared (lemma [undeclared]), so the
    last case, where a body would have to run, is never reached. *)
Definition callIn (scope : list (string * Value)) (identifier : string) : M Value :=
  (f <- GetValueIn scope identifier ;;
   match f with
   | VFun _ => ret VUndefined
   | _ => throw (TypeError f "call")
   end)%js.

Definition GetValue : string -> M Value := GetValueIn moduleScope.

Definition call : string -> M Value := callIn moduleScope.

(* ===================================================================== *)
(** ** src/index.js *)
(* ===================================================================== *)

(** The value of [slot && slot.value]: [undefined] when the slot is
    missing or carries no value, the raw string otherwise. *)
Definition slotValue (slot : option Slot) : Value :=
  match slot with
  | None => VUndefined
  | Some s =>
      match value s with
      | None => VUndefined
      | Some v => VStr v
      end
  end.

(** The test [!slot || !slot.value]. *)
Definition missing (slot : option Slot) : bool :=
  negb (ToBoolean (slotValue slot)).

(** [new Date(v)] (ES5 15.9.3.2): a string is parsed, anything else is
    converted to a number and taken as the time value. *)
Definition newDate (host : JsDate.Host) (v : Value) : JsDate.TimeValue :=
  match v with
  | VStr s => JsDate.parse host s
  | VNum n => n
  | VBool b => Some (if b then 1 else 0)
  | VUndefined | VObj _ | VFun _ => None
  end.

(** index.js, lines 251-260.  [rainProb > 0.5] compares numbers; the
    probability is taken as the binary64 number it is. *)
Definition getUmbrellaDecisionResponse (rainProb : float) : string :=
  let decisionTxt := "" in
  let decisionTxt :=
    if (0.5 <? rainProb)%float
    then "Take an umbrella"
    else "Don't take an umbrella" in
  decisionTxt.

(** The answer of the Data Point service as the callback reads it. *)
Record DataPointResponse : Type := { rainProb : float }.

(** index.js, lines 286-288: the body is a comment; the callback is never
    called. *)
Definition makeDataPointRequest (station : Value) (date : JsDate.TimeValue)
    (callback : Value -> DataPointResponse -> M unit) : M unit :=
  ret tt.

(** index.js, lines 266-280. *)
Definition getFinalUmbrellaResponse (location : Value) (date : JsDate.TimeValue) : M unit :=
  makeDataPointRequest location date
    (fun err dataPointResponse =>
       let speechOutput :=
         if ToBoolean err
         then "Sorry, the Met Office Data Point is experiencing a problem. Please try again later"
         else getUmbrellaDecisionResponse (rainProb dataPointResponse) in
       tellWithCard speechOutput "MODecide" speechOutput).

(** index.js, lines 293-304.  [assignDefault] is not read. *)
Definition getLocationFromIntent (intent : Intent) (assignDefault : bool) : Value :=
  let locationSlot := slots intent !! "location" in
  if missing locationSlot
  then VUndefined
  else slotValue locationSlot.

(** index.js, lines 115-124. *)
Definition handleWelcomeRequest : M unit :=
  (let inputPrompt := "How can we help you?" in
   whichCityPrompt <- GetValue "whichCityPrompt" ;;
   let speechOutput := "Welcome to The Met Office. " +:+ ToString whichCityPrompt in
   inputPromt <- GetValue "inputPromt" ;;
   let repromptText :=
     "We can help you make decisions based on our  "
     +:+ "world leading weather forecasts. "
     +:+ "For instance, you can find out if you'll need an umbrella."
     +:+ ToString inputPromt in
   ask speechOutput repromptText)%js.

(** index.js, lines 126-135. *)
Definition handleHelpRequest : M unit :=
  let repromptText := "Ask me if you are going to need an umbrella if you like." in
  let speechOutput :=
    "I'm here to help you make decisions that rely on our "
    +:+ "world leading weather forecasts."
    +:+ "Or you can say exit. "
    +:+ "For instance, you can find out if you'll need an umbrella."
    +:+ repromptText in
  ask speechOutput repromptText.

(** index.js, lines 140-163. *)
Definition handleCityDialogRequest (intent : Intent) : M unit :=
  (let cityStation := getLocationFromIntent intent false in
   error <- member cityStation "error" ;;
   if ToBoolean error then
     stations <- call "getAllStationsText" ;;
     let repromptText :=
       "Currently, I know tide information for these west coast cities: "
       +:+ ToString stations
       +:+ "Which city would you like tide information for?" in
     city <- member cityStation "city" ;;
     let speechOutput :=
       if ToBoolean city
       then "I'm sorry, I don't have any data for " +:+ ToString city +:+ ". " +:+ repromptText
       else repromptText in
     ask speechOutput repromptText
   else
     date <- getAttribute "date" ;;
     if ToBoolean date then
       call "getFinalTideResponse" ;; ret tt
     else
       setAttribute "city" cityStation ;;
       let speechOutput := "For which date?" in
       city <- member cityStation "city" ;;
       let repromptText :=
         "For which date would you like tide information for " +:+ ToString city +:+ "?" in
       ask speechOutput repromptText)%js.

(** index.js, lines 200-211. *)
Definition handleNoSlotDialogRequest (intent : Intent) : M unit :=
  (city <- getAttribute "city" ;;
   if ToBoolean city then
     let repromptText := "Please try again saying a day of the week, for example, Saturday. " in
     let speechOutput := repromptText in
     ask speechOutput repromptText
   else
     call "handleSupportedCitiesRequest" ;; ret tt)%js.

Section Handlers.

(** The host the skill runs on, and [alexaDateUtil.getFormattedDate],
    whose module is missing from the sources: the display text of a
    date, taken as it comes. *)
Variable host : JsDate.Host.
Variable getFormattedDate : JsDate.TimeValue -> string.

(** index.js, lines 310-338. *)
Definition getDateFromIntent (intent : Intent) : Value :=
  let dateSlot := slots intent !! "Date" in
  if missing dateSlot then
    VObj [("displayDate", VStr "Today"); ("requestDateParam", VStr "date=today")]
  else
    let date := newDate host (slotValue dateSlot) in
    let month := NumberAdd (JsDate.getMonth host date) (Some 1) in
    let month :=
      if NumberLt month (Some 10) then VStr ("0" +:+ NumberToString month) else VNum month in
    let dayOfMonth := JsDate.getDate host date in
    let dayOfMonth :=
      if NumberLt dayOfMonth (Some 10) then VStr ("0" +:+ NumberToString dayOfMonth)
      else VNum dayOfMonth in
    let requestDay :=
      "begin_date=" +:+ NumberToString (JsDate.getFullYear host date)
      +:+ ToString month +:+ ToString dayOfMonth
      +:+ "&range=24" in
    VObj [("displayDate", VStr (getFormattedDate date)); ("requestDateParam", VStr requestDay)].

(** index.js, lines 168-191. *)
Definition handleDateDialogRequest (intent : Intent) : M unit :=
  (let date := getDateFromIntent intent in
   if negb (ToBoolean date) then
     let repromptText :=
       "Please try again saying a day of the week, for example, Saturday. "
       +:+ "For which date would you like tide information?" in
     let speechOutput := "I'm sorry, I didn't understand that date. " +:+ repromptText in
     ask speechOutput repromptText
   else
     city <- getAttribute "city" ;;
     if ToBoolean city then
       call "getFinalTideResponse" ;; ret tt
     else
       setAttribute "date" date ;;
       displayDate <- member date "displayDate" ;;
       let speechOutput :=
         "For which city would you like tide information for " +:+ ToString displayDate +:+ "?" in
       let repromptText := "For which city?" in
       ask speechOutput repromptText)%js.

(** index.js, lines 218-249.  [date = new Date()] assigns an identifier
    the module never declares; outside strict mode that creates a global
    of that name, which nothing reads afterwards. *)
Definition handleOneshotUmbrellaRequest (intent : Intent) : M unit :=
  (let location := getLocationFromIntent intent true in
   error <- member location "error" ;;
   if ToBoolean error then
     let repromptText :=
       "Currently, I can only help you with cities in the UK"
       +:+ "Which city would you like tide information for?" in
     city <- member location "city" ;;
     let speechOutput :=
       if ToBoolean city
       then "I'm sorry, I don't have any data for " +:+ ToString city +:+ ". " +:+ repromptText
       else repromptText in
     ask speechOutput repromptText
   else
     let date := Some (JsDate.currentTime host) in
     getFinalUmbrellaResponse location date)%js.

(** index.js, lines 90-102. *)
Definition DialogUmbrellaIntent (intent : Intent) : M unit :=
  let citySlot := slots intent !! "City" in
  let dateSlot := slots intent !! "Date" in
  if ToBoolean (slotValue citySlot) then
    handleCityDialogRequest intent
  else if ToBoolean (slotValue dateSlot) then
    handleDateDialogRequest intent
  else
    handleNoSlotDialogRequest intent.

(** index.js, lines 84-111: the table of intent handlers. *)
Definition intentHandlers (intentName : string) : option (Intent -> M unit) :=
  if String.eqb intentName "OneShotUmbrellaIntent" then Some handleOneshotUmbrellaRequest
  else if String.eqb intentName "DialogUmbrellaIntent" then Some DialogUmbrellaIntent
  else if String.eqb intentName "SupportedCitiesIntent"
       then Some (fun _ => call "handleSupportedCitiesRequest" ;; ret tt)%js
  else if String.eqb intentName "HelpIntent" then Some (fun _ => handleHelpRequest)
  else None.

End Handlers.

(** index.js, lines 70-73: a launch request goes to the welcome. *)
Definition onLaunch : M unit := handleWelcomeRequest.

(* ===================================================================== *)
(** ** src/unnamed/part_001: the revision that reads Data Point itself *)
(* ===================================================================== *)

Module Part001.

(** What part_001 declares at top level, with the bindings of the host. *)
Definition moduleScope : list (string * Value) :=
  [ ("APP_ID", VUndefined);
    ("http", VObj []);
    ("alexaDateUtil", VObj []);
    ("datapoint", VObj []);
    ("request", VFun "request");
    ("AlexaSkill", VFun "AlexaSkill");
    ("MODecide", VFun "MODecide");
    ("handleWelcomeRequest", VFun "handleWelcomeRequest");
    ("handleHelpRequest", VFun "handleHelpRequest");
    ("handleOneshotUmbrellaRequest", VFun "handleOneshotUmbrellaRequest");
    ("onGotLocation", VFun "onGotLocation");
    ("getLocationFromIntent", VFun "getLocationFromIntent");
    ("getWeatherFromLocation", VFun "getWeatherFromLocation");
    ("getUmbrellaDecisionResponse", VFun "getUmbrellaDecisionResponse");
    ("exports", VObj []);
    ("require", VFun "require");
    ("module", VObj []);
    ("console", VObj []);
    ("Object", VFun "Object");
    ("JSON", VObj []) ].

(** part_001, lines 113-122: the text of index.js. *)
Definition handleWelcomeRequest : M unit :=
  (let inputPrompt := "How can we help you?" in
   whichCityPrompt <- GetValueIn moduleScope "whichCityPrompt" ;;
   let speechOutput := "Welcome to The Met Office. " +:+ ToString whichCityPrompt in
   inputPromt <- GetValueIn moduleScope "inputPromt" ;;
   let repromptText :=
     "We can help you make decisions based on our  "
     +:+ "world leading weather forecasts. "
     +:+ "For instance, you can find out if you'll need an umbrella."
     +:+ ToString inputPromt in
   ask speechOutput repromptText)%js.

(** part_001, lines 92-104: the same dispatch; the three steps it names
    are not declared in this revision. *)
Definition DialogUmbrellaIntent (intent : Intent) : M unit :=
  (let citySlot := slots intent !! "City" in
   let dateSlot := slots intent !! "Date" in
   if ToBoolean (slotValue citySlot) then
     callIn moduleScope "handleCityDialogRequest" ;; ret tt
   else if ToBoolean (slotValue dateSlot) then
     callIn moduleScope "handleDateDialogRequest" ;; ret tt
   else
     callIn moduleScope "handleNoSlotDialogRequest" ;; ret tt)%js.

(** part_001, lines 186-196: the same rule on the 0-100 scale of the
    Data Point precipitation value. *)
Definition getUmbrellaDecisionResponse (rainProb : float) : string :=
  let decisionTxt := "" in
  let decisionTxt :=
    if (50 <? rainProb)%float
    then "Take an umbrella"
    else "Don't take an umbrella" in
  decisionTxt.

End Part001.

(* ===================================================================== *)
(** ** src/unnamed/part_002: the first revision, without AlexaSkill *)
(* ===================================================================== *)

Module Part002.

(** part_002, lines 146-165: the parts of a speechlet response. *)
Record OutputSpeech : Type := { type : string; text : string }.

Record Card : Type := { cardType : string; title : string; content : string }.

Record SpeechletResponse : Type := {
  outputSpeech : OutputSpeech;
  card : Card;
  reprompt : OutputSpeech;
  shouldEndSession : bool
}.

(** part_002, lines 167-174: the body handed to [context.succeed]. *)
Record Response : Type := {
  version : string;
  sessionAttributes : gmap string Value;
  response : SpeechletResponse
}.

(** The calls a handler makes on the [context] of the host:
    [context.succeed(body)], [context.succeed()] and
    [context.fail(error)]. *)
Inductive ContextCall : Type :=
| Succeed (body : option Response)
| Fail (error : string).

(** The event of the host.  The envelope is taken to be well formed:
    [event.session.application], [event.session] and [event.request] are
    objects, and the intent is read only when the request is an
    IntentRequest. *)
Record Event : Type := {
  sessionNew : bool;
  sessionAttributesIn : gmap string Value;
  requestType : string;
  intent : Intent
}.

(** A computation of part_002: it adds to the calls made on [context]
    and completes normally or by throwing a value. *)
Definition Run (A : Type) : Type := list ContextCall -> (A + Value) * list ContextCall.

Definition unit_ {A} (a : A) : Run A := fun calls => (inl a, calls).

Definition raise {A} (v : Value) : Run A := fun calls => (inr v, calls).

Definition andThen {A B} (c : Run A) (k : A -> Run B) : Run B :=
  fun calls =>
    match c calls with
    | (inl a, calls') => k a calls'
    | (inr v, calls') => (inr v, calls')
    end.

(** [try { c } catch (e) { handler(e) }]. *)
Definition tryCatch {A} (c : Run A) (handler : Value -> Run A) : Run A :=
  fun calls =>
    match c calls with
    | (inl a, calls') => (inl a, calls')
    | (inr v, calls') => handler v calls'
    end.

Definition context_succeed (body : option Response) : Run unit :=
  fun calls => (inl tt, (calls ++ [Succeed body])%list).

Definition context_fail (error : string) : Run unit :=
  fun calls => (inl tt, (calls ++ [Fail error])%list).

(** The callback that the handler passes down. *)
Definition Callback : Type := gmap string Value -> SpeechletResponse -> Run unit.

(** part_002, lines 146-165. *)
Definition buildSpeechletResponse (title output repromptText : string)
    (shouldEndSession : bool) : SpeechletResponse :=
  {| outputSpeech := {| type := "PlainText"; text := output |};
     card := {| cardType := "Simple";
                title := "SessionSpeechlet - " +:+ title;
                content := "SessionSpeechlet - " +:+ output |};
     reprompt := {| type := "PlainText"; text := repromptText |};
     shouldEndSession := shouldEndSession |}.

(** part_002, lines 167-174. *)
Definition buildResponse (sessionAttributes : gmap string Value)
    (speechletResponse : SpeechletResponse) : Response :=
  {| version := "1.0";
     sessionAttributes := sessionAttributes;
     response := speechletResponse |}.

(** part_002, lines 54-57 and 93-97: both only write to the log. *)
Definition onSessionStarted : Run unit := unit_ tt.

Definition onSessionEnded : Run unit := unit_ tt.

(** part_002, lines 101-116. *)
Definition getWelcomeResponse (callback : Callback) : Run unit :=
  let sessionAttributes : gmap string Value := ∅ in
  let cardTitle := "Welcome" in
  let speechOutput :=
    "Welcome to the Met Office, "
    +:+ "You can find out if you need to take an umbrella with you today by saying, "
    +:+ "Do I need an umbrella in LOCATION" in
  let repromptText := "Please tell where you are by saying, " +:+ "I'M HERE" in
  let shouldEndSession := false in
  callback sessionAttributes
    (buildSpeechletResponse cardTitle speechOutput repromptText shouldEndSession).

(** part_002, lines 62-68. *)
Definition onLaunch (callback : Callback) : Run unit :=
  getWelcomeResponse callback.

(** part_002, lines 121-141.  The test [if (ukPlace)] is on the slot
    object; its [value], present or not, is then put into the speech. *)
Definition getNeedUmbrea (intent : Intent) (callback : Callback) : Run unit :=
  let cardTitle := name intent in
  let ukPlace := slots intent !! "ukPlace" in
  let sessionAttributes : gmap string Value := ∅ in
  let shouldEndSession := false in
  let '(speechOutput, repromptText) :=
    match ukPlace with
    | Some _ =>
        let ukPlace := slotValue ukPlace in
        ("Oooh I don't know about " +:+ ToString ukPlace +:+ " I'll ask Jacob",
         "You can ask me if you need an umbrella if you like")
    | None =>
        ("I'm not sure where you are, please tell me again",
         "I'm not sure what your location is, you can ask me if you need to take and umbrella by saying magic words")
    end in
  callback sessionAttributes
    (buildSpeechletResponse cardTitle speechOutput repromptText shouldEndSession).

(** part_002, lines 73-87. *)
Definition onIntent (intent : Intent) (callback : Callback) : Run unit :=
  let intentName := name intent in
  if String.eqb "NeedUmbrella" intentName
  then getNeedUmbrea intent callback
  else raise (VStr "Invalid intent").

(** part_002, lines 12-49. *)
Definition handler (event : Event) : Run unit :=
  let callback : Callback :=
    fun sessionAttributes speechletResponse =>
      context_succeed (Some (buildResponse sessionAttributes speechletResponse)) in
  tryCatch
    (andThen (if sessionNew event then onSessionStarted else unit_ tt) (fun _ =>
       if String.eqb (requestType event) "LaunchRequest" then
         onLaunch callback
       else if String.eqb (requestType event) "IntentRequest" then
         onIntent (intent event) callback
       else if String.eqb (requestType event) "SessionEndedRequest" then
         andThen onSessionEnded (fun _ => context_succeed None)
       else
         unit_ tt))
    (fun e => context_fail ("Exception: " +:+ ToString e)).

End Part002.

(* ===================================================================== *)
(** ** Vocabulary of the properties *)
(* ===================================================================== *)

(** The slot [slot] of the intent carries the non-empty value [v]. *)
Definition filled (intent : Intent) (slot v : string) : Prop :=
  exists s, slots intent !! slot = Some s /\ value s = Some v /\ v <> "".

(** The slot is absent, or present without a value or with the empty
    string. *)
Definition unfilled (intent : Intent) (slot : string) : Prop :=
  match slots intent !! slot with
  | None => True
  | Some s => value s = None \/ value s = Some ""
  end.

(** The session holds something under [key] (a truthy attribute). *)
Definition stored (w : World) (key : string) : bool :=
  ToBoolean (default VUndefined (attributes w !! key)).

(** The world after one more answer. *)
Definition answered (w : World) (d : Directive) : World :=
  {| attributes := attributes w; responses := responses w ++ [d] |}.

(** [text] contains [word]. *)
Definition mentions (word text : string) : bool :=
  match String.index 0 word text with
  | Some _ => true
  | None => false
  end.

(** The property [requestDateParam] of a resolved date. *)
Definition requestDateParam (date : Value) : Value + Error :=
  Get date "requestDateParam".

Definition displayDate (date : Value) : Value + Error :=
  Get date "displayDate".

(** The date resolved when the slot says nothing. *)
Definition today : Value :=
  VObj [("displayDate", VStr "Today"); ("requestDateParam", VStr "date=today")].

(** Zero-padded decimal numerals of two and of four digits. *)
Definition digitChar (n : Z) : ascii := ascii_of_nat (48 + Z.to_nat n).

Definition twoDigits (n : Z) : string :=
  String (digitChar (n / 10)) (String (digitChar (n mod 10)) "").

Definition fourDigits (n : Z) : string :=
  twoDigits (n / 100) +:+ twoDigits (n mod 100).

(** The integers [lo], [lo + 1], ..., [lo + n - 1]. *)
Definition range (lo : Z) (n : nat) : list Z :=
  map (fun i => lo + Z.of_nat i) (seq 0 n).

(** The calendar year in which the shifted year [yoe] sees month [m]:
    January and February belong to the next calendar year. *)
Definition calendarYear (yoe m : Z) : Z := if m <=? 2 then yoe + 1 else yoe.

(** [civilOfEra] undoes [dayOfEra] at one date of the era. *)
Definition eraDateOk (yoe m d : Z) : bool :=
  let doe := JsDate.dayOfEra yoe m d in
  let '(yoe', m', d') := JsDate.civilOfEra doe in
  (0 <=? doe) && (doe <? 146097) && (yoe' =? yoe) && (m' =? m) && (d' =? d).

(** The padding of index.js, [n < 10 ? '0' + n : n], then ToString. *)
Definition padded (n : option Z) : string :=
  ToString (if NumberLt n (Some 10) then VStr ("0" +:+ NumberToString n) else VNum n).

(** index.js, lines 269-279: the callback that
    [getFinalUmbrellaResponse] hands to [makeDataPointRequest], under the
    name the source gives it. *)
Definition dataPointCallback (err : Value) (dataPointResponse : DataPointResponse) : M unit :=
  let speechOutput :=
    if ToBoolean err
    then "Sorry, the Met Office Data Point is experiencing a problem. Please try again later"
    else getUmbrellaDecisionResponse (rainProb dataPointResponse) in
  tellWithCard speechOutput "MODecide" speechOutput.

(** The world after a run of dialog turns, each one starting in the
    world that the turn before it left. *)
Definition dialogTurns (host : JsDate.Host) (fmt : JsDate.TimeValue -> string)
    (intents : list Intent) (w : World) : World :=
  fold_left (fun w intent => (DialogUmbrellaIntent host fmt intent w).2) intents w.

(** City and date are not both stored, and no answer so far ends the
    session. *)
Definition undecided (w : World) : Prop :=
  stored w "city" && stored w "date" = false
  /\ Forall (fun d => shouldEndSession d = false) (responses w).

(** [f] holds of the [n] integers from [lo] on. *)
Fixpoint forallFrom (n : nat) (lo : Z) (f : Z -> bool) : bool :=
  match n with
  | O => true
  | S n' => f lo && forallFrom n' (lo + 1) f
  end.

(** The fields that [civilOfEra] gives for a day of the era are those of
    a date. *)
Definition eraFieldsOk (doe : Z) : bool :=
  let '(yoe, m, d) := JsDate.civilOfEra doe in
  (0 <=? yoe) && (yoe <? 400) && (1 <=? m) && (m <=? 12) && (1 <=? d) && (d <=? 31).

(** Concrete hosts, intents and sessions used in the examples. *)
Definition utcHost : JsDate.Host :=
  {| JsDate.localOffset := fun _ => 0;
     JsDate.parseFallback := fun _ => None;
     JsDate.currentTime := 1434758400000 |}.

(** A host eight hours behind UTC (Pacific Standard Time). *)
Definition pacificHost : JsDate.Host :=
  {| JsDate.localOffset := fun _ => -8 * 3600000;
     JsDate.parseFallback := fun _ => None;
     JsDate.currentTime := 1434758400000 |}.

Definition intentWith (intentName : string) (l : list (string * string)) : Intent :=
  {| name := intentName;
     slots := list_to_map (map (fun p => (p.1, {| value := Some p.2 |})) l) |}.

Definition emptySession : World := {| attributes := ∅; responses := [] |}.

Definition sessionWith (key : string) (v : Value) : World :=
  {| attributes := {[ key := v ]}; responses := [] |}.

Definition plainFormat (date : JsDate.TimeValue) : string :=
  match date with
  | Some _ => "Saturday"
  | None => "undefined undefined undefined"
  end.

Definition dayOfWeekPrompt : string :=
  "Please try again saying a day of the week, for example, Saturday. ".

(** Events for part_002: a launch, and a NeedUmbrella intent whose
    [ukPlace] slot is present without a value. *)
Definition launchEvent : Part002.Event :=
  {| Part002.sessionNew := true;
     Part002.sessionAttributesIn := {[ "city" := VStr "Exeter" ]};
     Part002.requestType := "LaunchRequest";
     Part002.intent := intentWith "" [] |}.

Definition valuelessPlaceEvent : Part002.Event :=
  {| Part002.sessionNew := false;
     Part002.sessionAttributesIn := ∅;
     Part002.requestType := "IntentRequest";
     Part002.intent :=
       {| name := "NeedUmbrella";
          slots := {[ "ukPlace" := {| value := None |} ]} |} |}.

(* ===================================================================== *)
(** ** Slots *)
(* ===================================================================== *)

Lemma slotValue_filled intent slot v :
  filled intent slot v -> slotValue (slots intent !! slot) = VStr v.
Proof.
  intros (s & Hs & Hv & _). rewrite Hs. unfold slotValue. now rewrite Hv.
Qed.

Lemma eqb_empty_false v : v <> "" -> String.eqb v "" = false.
Proof. intros H. now apply String.eqb_neq. Qed.

Lemma ToBoolean_filled intent slot v :
  filled intent slot v -> ToBoolean (slotValue (slots intent !! slot)) = true.
Proof.
  intros H. rewrite (slotValue_filled _ _ _ H). destruct H as (_ & _ & _ & Hne).
  simpl. now rewrite eqb_empty_false.
Qed.

Lemma ToBoolean_unfilled intent slot :
  unfilled intent slot -> ToBoolean (slotValue (slots intent !! slot)) = false.
Proof.
  unfold unfilled, slotValue. destruct (slots intent !! slot) as [s|]; [|reflexivity].
  intros [H|H]; now rewrite H.
Qed.

Lemma slotValue_unfilled intent slot :
  unfilled intent slot ->
  slotValue (slots intent !! slot) = VUndefined \/ slotValue (slots intent !! slot) = VStr "".
Proof.
  unfold unfilled, slotValue. destruct (slots intent !! slot) as [s|]; [|now left].
  intros [H|H]; rewrite H; auto.
Qed.

Lemma missing_filled intent slot v :
  filled intent slot v -> missing (slots intent !! slot) = false.
Proof. intros H. unfold missing. now rewrite (ToBoolean_filled _ _ _ H). Qed.

Lemma missing_unfilled intent slot :
  unfilled intent slot -> missing (slots intent !! slot) = true.
Proof. intros H. unfold missing. now rewrite (ToBoolean_unfilled _ _ H). Qed.

(** Every slot is either filled or unfilled, and never both. *)
Lemma filled_or_unfilled intent slot :
  (exists v, filled intent slot v) \/ unfilled intent slot.
Proof.
  unfold filled, unfilled. destruct (slots intent !! slot) as [s|] eqn:Hs; [|now right].
  destruct (value s) as [v|] eqn:Hv; [|right; now left].
  destruct (String.eqb v "") eqn:He.
  - apply String.eqb_eq in He. subst v. right. now right.
  - apply String.eqb_neq in He. left. exists v, s. auto.
Qed.

Lemma filled_not_unfilled intent slot v :
  filled intent slot v -> ~ unfilled intent slot.
Proof.
  intros H U. pose proof (ToBoolean_filled _ _ _ H) as T.
  rewrite (ToBoolean_unfilled _ _ U) in T. discriminate.
Qed.

(* ===================================================================== *)
(** ** The location of an intent *)
(* ===================================================================== *)

Lemma getLocationFromIntent_filled intent assignDefault v :
  filled intent "location" v -> getLocationFromIntent intent assignDefault = VStr v.
Proof.
  intros H. unfold getLocationFromIntent.
  rewrite (missing_filled _ _ _ H). now apply slotValue_filled.
Qed.

Lemma getLocationFromIntent_unfilled intent assignDefault :
  unfilled intent "location" -> getLocationFromIntent intent assignDefault = VUndefined.
Proof.
  intros H. unfold getLocationFromIntent. now rewrite (missing_unfilled _ _ H).
Qed.

(** The identifiers that index.js and part_001 call or read without
    declaring. *)
Lemma undeclared :
  Forall (fun x => assoc x moduleScope = None)
    ["whichCityPrompt"; "inputPromt"; "getAllStationsText";
     "getFinalTideResponse"; "handleSupportedCitiesRequest"]
  /\ Forall (fun x => assoc x Part001.moduleScope = None)
       ["whichCityPrompt"; "inputPromt"; "handleCityDialogRequest";
        "handleDateDialogRequest"; "handleNoSlotDialogRequest"].
Proof. split; repeat constructor. Qed.

Lemma call_getFinalTideResponse w :
  call "getFinalTideResponse" w = (Throw (ReferenceError "getFinalTideResponse"), w).
Proof. reflexivity. Qed.

Lemma call_handleSupportedCitiesRequest w :
  call "handleSupportedCitiesRequest" w
  = (Throw (ReferenceError "handleSupportedCitiesRequest"), w).
Proof. reflexivity. Qed.

(* ===================================================================== *)
(** ** The city step of the dialog *)
(* ===================================================================== *)

(** With a [location] value the city step never reports a failure: it
    either goes for the final answer, whose function is not declared, or
    stores the raw string and asks for the date. *)
Lemma handleCityDialogRequest_located intent v w :
  filled intent "location" v ->
  handleCityDialogRequest intent w =
    if stored w "date"
    then (Throw (ReferenceError "getFinalTideResponse"), w)
    else (Normal tt,
          {| attributes := <["city" := VStr v]> (attributes w);
             responses := responses w ++
               [Ask "For which date?"
                    "For which date would you like tide information for undefined?"] |}).
Proof.
  intros H. unfold handleCityDialogRequest.
  rewrite (getLocationFromIntent_filled _ _ _ H).
  unfold bind at 1. simpl. unfold bind at 1. unfold getAttribute at 1.
  unfold stored. destruct (ToBoolean (default VUndefined (attributes w !! "date"))); reflexivity.
Qed.

(** Without one, reading [.error] of [undefined] throws. *)
Lemma handleCityDialogRequest_unlocated intent w :
  unfilled intent "location" ->
  handleCityDialogRequest intent w = (Throw (TypeError VUndefined "error"), w).
Proof.
  intros H. unfold handleCityDialogRequest.
  rewrite (getLocationFromIntent_unfilled _ _ H). reflexivity.
Qed.

(* ===================================================================== *)
(** ** The one-shot request *)
(* ===================================================================== *)

Lemma handleOneshotUmbrellaRequest_located host intent v w :
  filled intent "location" v ->
  handleOneshotUmbrellaRequest host intent w = (Normal tt, w).
Proof.
  intros H. unfold handleOneshotUmbrellaRequest.
  rewrite (getLocationFromIntent_filled _ _ _ H). reflexivity.
Qed.

Lemma handleOneshotUmbrellaRequest_unlocated host intent w :
  unfilled intent "location" ->
  handleOneshotUmbrellaRequest host intent w = (Throw (TypeError VUndefined "error"), w).
Proof.
  intros H. unfold handleOneshotUmbrellaRequest.
  rewrite (getLocationFromIntent_unfilled _ _ H). reflexivity.
Qed.

(* ===================================================================== *)
(** ** The dispatch of the dialog intent *)
(* ===================================================================== *)

Lemma DialogUmbrellaIntent_city host fmt intent v :
  filled intent "City" v ->
  DialogUmbrellaIntent host fmt intent = handleCityDialogRequest intent.
Proof.
  intros H. unfold DialogUmbrellaIntent. now rewrite (ToBoolean_filled _ _ _ H).
Qed.

Lemma DialogUmbrellaIntent_date host fmt intent v :
  unfilled intent "City" -> filled intent "Date" v ->
  DialogUmbrellaIntent host fmt intent = handleDateDialogRequest host fmt intent.
Proof.
  intros HC HD. unfold DialogUmbrellaIntent.
  now rewrite (ToBoolean_unfilled _ _ HC), (ToBoolean_filled _ _ _ HD).
Qed.

Lemma DialogUmbrellaIntent_noSlot host fmt intent :
  unfilled intent "City" -> unfilled intent "Date" ->
  DialogUmbrellaIntent host fmt intent = handleNoSlotDialogRequest intent.
Proof.
  intros HC HD. unfold DialogUmbrellaIntent.
  now rewrite (ToBoolean_unfilled _ _ HC), (ToBoolean_unfilled _ _ HD).
Qed.

(* ===================================================================== *)
(** ** The date of an intent *)
(* ===================================================================== *)

Lemma getDateFromIntent_unfilled host fmt intent :
  unfilled intent "Date" -> getDateFromIntent host fmt intent = today.
Proof.
  intros H. unfold getDateFromIntent. now rewrite (missing_unfilled _ _ H).
Qed.

(** Whatever the slot holds, the result is an object with the two
    properties, both strings. *)
Lemma getDateFromIntent_shape host fmt intent :
  exists display request,
    getDateFromIntent host fmt intent =
      VObj [("displayDate", VStr display); ("requestDateParam", VStr request)].
Proof.
  unfold getDateFromIntent. destruct (missing (slots intent !! "Date")); eauto.
Qed.

(** So the test [!date] of the date step never succeeds. *)
Lemma getDateFromIntent_truthy host fmt intent :
  ToBoolean (getDateFromIntent host fmt intent) = true.
Proof.
  destruct (getDateFromIntent_shape host fmt intent) as (d & r & ->). reflexivity.
Qed.

(** A string the host cannot parse gives NaN in every field. *)
Lemma getDateFromIntent_unparseable host fmt intent s :
  filled intent "Date" s -> JsDate.parse host s = None ->
  getDateFromIntent host fmt intent =
    VObj [("displayDate", VStr (fmt None));
          ("requestDateParam", VStr "begin_date=NaNNaNNaN&range=24")].
Proof.
  intros H Hp. unfold getDateFromIntent.
  rewrite (missing_filled _ _ _ H), (slotValue_filled _ _ _ H).
  simpl. rewrite Hp. reflexivity.
Qed.

(* ===================================================================== *)
(** ** The date step and the no-slot step of the dialog *)
(* ===================================================================== *)

Lemma handleDateDialogRequest_run host fmt intent w display request :
  getDateFromIntent host fmt intent =
    VObj [("displayDate", VStr display); ("requestDateParam", VStr request)] ->
  handleDateDialogRequest host fmt intent w =
    if stored w "city"
    then (Throw (ReferenceError "getFinalTideResponse"), w)
    else (Normal tt,
          {| attributes := <["date" := getDateFromIntent host fmt intent]> (attributes w);
             responses := responses w ++
               [Ask ("For which city would you like tide information for " +:+ display +:+ "?")
                    "For which city?"] |}).
Proof.
  intros H. unfold handleDateDialogRequest. rewrite H. simpl.
  unfold bind at 1. unfold getAttribute at 1. unfold stored.
  destruct (ToBoolean (default VUndefined (attributes w !! "city"))); reflexivity.
Qed.

Lemma handleNoSlotDialogRequest_run intent w :
  handleNoSlotDialogRequest intent w =
    if stored w "city"
    then (Normal tt, answered w (Ask dayOfWeekPrompt dayOfWeekPrompt))
    else (Throw (ReferenceError "handleSupportedCitiesRequest"), w).
Proof.
  unfold handleNoSlotDialogRequest, bind at 1, getAttribute at 1, stored.
  destruct (ToBoolean (default VUndefined (attributes w !! "city"))); reflexivity.
Qed.

(** No step of the dialog writes a session attribute unless it asks the
    next question, and none ever tells. *)
Lemma DialogUmbrellaIntent_never_tells host fmt intent w :
  exists asked,
    responses (DialogUmbrellaIntent host fmt intent w).2 = (responses w ++ asked)%list
    /\ Forall (fun d => shouldEndSession d = false) asked.
Proof.
  destruct (filled_or_unfilled intent "City") as [[c HC]|HC].
  - rewrite (DialogUmbrellaIntent_city _ _ _ _ HC).
    destruct (filled_or_unfilled intent "location") as [[l HL]|HL].
    + rewrite (handleCityDialogRequest_located _ _ _ HL).
      destruct (stored w "date"); simpl.
      * exists []. now rewrite app_nil_r.
      * eexists. split; [reflexivity|]. now repeat constructor.
    + rewrite (handleCityDialogRequest_unlocated _ _ HL). exists []. simpl.
      now rewrite app_nil_r.
  - destruct (filled_or_unfilled intent "Date") as [[d HD]|HD].
    + rewrite (DialogUmbrellaIntent_date _ _ _ _ HC HD).
      destruct (getDateFromIntent_shape host fmt intent) as (dd & rp & E).
      rewrite (handleDateDialogRequest_run _ _ _ _ _ _ E).
      destruct (stored w "city"); simpl.
      * exists []. now rewrite app_nil_r.
      * eexists. split; [reflexivity|]. now repeat constructor.
    + rewrite (DialogUmbrellaIntent_noSlot _ _ _ HC HD), handleNoSlotDialogRequest_run.
      destruct (stored w "city"); simpl.
      * eexists. split; [reflexivity|]. now repeat constructor.
      * exists []. now rewrite app_nil_r.
Qed.

(* ===================================================================== *)
(** ** The umbrella rule *)
(* ===================================================================== *)

Lemma getUmbrellaDecisionResponse_cases rainProb :
  getUmbrellaDecisionResponse rainProb =
    if (0.5 <? rainProb)%float then "Take an umbrella" else "Don't take an umbrella".
Proof. reflexivity. Qed.

(** part_001 applies the same rule to the percentage that Data Point
    reports: the threshold is 50 there. *)
#[warnings="-inexact-float"]
Lemma Part001_getUmbrellaDecisionResponse_percent :
  (forall p, Part001.getUmbrellaDecisionResponse p = "Take an umbrella"
             <-> (50 <? p)%float = true)
  /\ Part001.getUmbrellaDecisionResponse 60 = "Take an umbrella"
  /\ Part001.getUmbrellaDecisionResponse 40 = "Don't take an umbrella"
  /\ Part001.getUmbrellaDecisionResponse 50 = "Don't take an umbrella"
  /\ Part001.getUmbrellaDecisionResponse 0.6 = "Don't take an umbrella".
Proof.
  split; [|repeat split; reflexivity].
  intros p. unfold Part001.getUmbrellaDecisionResponse.
  destruct (50 <? p)%float; split; intros H; try reflexivity; discriminate.
Qed.

(** C2. The umbrella decision of index.js is one comparison of the
    precipitation probability with 0.5: the text is "Take an umbrella"
    exactly when [rainProb > 0.5] in the IEEE 754 ordering of JavaScript
    numbers, and "Don't take an umbrella" otherwise (also for NaN).  In
    particular 0.6 gives "Take an umbrella", 0.4 and the boundary 0.5 give
    "Don't take an umbrella". *)
#[warnings="-inexact-float"]
Theorem C2_umbrella_threshold :
  (forall rainProb,
      getUmbrellaDecisionResponse rainProb = "Take an umbrella"
      <-> (0.5 <? rainProb)%float = true)
  /\ (forall rainProb,
      getUmbrellaDecisionResponse rainProb = "Don't take an umbrella"
      <-> (0.5 <? rainProb)%float = false)
  /\ getUmbrellaDecisionResponse 0.6 = "Take an umbrella"
  /\ getUmbrellaDecisionResponse 0.4 = "Don't take an umbrella"
  /\ getUmbrellaDecisionResponse 0.5 = "Don't take an umbrella"
  /\ getUmbrellaDecisionResponse nan = "Don't take an umbrella".
Proof.
  split; [|split; [|repeat split; reflexivity]];
    intros p; rewrite getUmbrellaDecisionResponse_cases;
    destruct (0.5 <? p)%float; split; intros H; try reflexivity; discriminate.
Qed.

(* ===================================================================== *)
(** ** The launch request *)
(* ===================================================================== *)

(** C9. Every launch request makes the welcome handler throw a
    ReferenceError before it calls [response.ask]: the first identifier
    it reads, [whichCityPrompt], is declared nowhere (nor is [inputPromt],
    which it would read next), so the world is left as it was, no answer
    is recorded, and the handler completes by the throw.  The same holds
    of the welcome handler of part_001. *)
Theorem C9_welcome_throws_ReferenceError :
  forall w : World,
    onLaunch w = (Throw (ReferenceError "whichCityPrompt"), w)
    /\ responses (onLaunch w).2 = responses w
    /\ assoc "whichCityPrompt" moduleScope = None
    /\ assoc "inputPromt" moduleScope = None
    /\ Part001.handleWelcomeRequest w = (Throw (ReferenceError "whichCityPrompt"), w)
    /\ assoc "whichCityPrompt" Part001.moduleScope = None
    /\ assoc "inputPromt" Part001.moduleScope = None.
Proof. intros w. repeat split. Qed.

(* ===================================================================== *)
(** ** The dispatch order *)
(* ===================================================================== *)

(** In part_001 the step that runs shows in the identifier whose call
    fails. *)
Lemma Part001_DialogUmbrellaIntent_run intent w :
  Part001.DialogUmbrellaIntent intent w =
    (Throw (ReferenceError
              (if ToBoolean (slotValue (slots intent !! "City"))
               then "handleCityDialogRequest"
               else if ToBoolean (slotValue (slots intent !! "Date"))
                    then "handleDateDialogRequest"
                    else "handleNoSlotDialogRequest")), w).
Proof.
  unfold Part001.DialogUmbrellaIntent.
  destruct (ToBoolean (slotValue (slots intent !! "City")));
    [|destruct (ToBoolean (slotValue (slots intent !! "Date")))]; reflexivity.
Qed.

(** C8. A dialog-intent turn looks at the City slot first and at the Date
    slot second: with a non-empty City value the city step runs whatever
    the Date slot holds; otherwise, with a non-empty Date value, the date
    step runs; with neither, the no-slot step runs.  The dispatch of
    part_001 takes the same three ways, each to the call of a step that
    this revision does not declare. *)
Theorem C8_dialog_dispatch_priority host fmt intent :
  (forall c, filled intent "City" c ->
     DialogUmbrellaIntent host fmt intent = handleCityDialogRequest intent
     /\ forall w, Part001.DialogUmbrellaIntent intent w
                  = (Throw (ReferenceError "handleCityDialogRequest"), w))
  /\ (forall d, unfilled intent "City" -> filled intent "Date" d ->
     DialogUmbrellaIntent host fmt intent = handleDateDialogRequest host fmt intent
     /\ forall w, Part001.DialogUmbrellaIntent intent w
                  = (Throw (ReferenceError "handleDateDialogRequest"), w))
  /\ (unfilled intent "City" -> unfilled intent "Date" ->
     DialogUmbrellaIntent host fmt intent = handleNoSlotDialogRequest intent
     /\ forall w, Part001.DialogUmbrellaIntent intent w
                  = (Throw (ReferenceError "handleNoSlotDialogRequest"), w)).
Proof.
  split; [|split].
  - intros c HC. split; [now apply DialogUmbrellaIntent_city with c|].
    intros w. rewrite Part001_DialogUmbrellaIntent_run.
    now rewrite (ToBoolean_filled _ _ _ HC).
  - intros d HC HD. split; [now apply DialogUmbrellaIntent_date with d|].
    intros w. rewrite Part001_DialogUmbrellaIntent_run.
    now rewrite (ToBoolean_unfilled _ _ HC), (ToBoolean_filled _ _ _ HD).
  - intros HC HD. split; [now apply DialogUmbrellaIntent_noSlot|].
    intros w. rewrite Part001_DialogUmbrellaIntent_run.
    now rewrite (ToBoolean_unfilled _ _ HC), (ToBoolean_unfilled _ _ HD).
Qed.

Ltac slot_filled :=
  solve [eexists; split; [vm_compute; reflexivity | split; [reflexivity | discriminate]]].

Ltac slot_unfilled := solve [vm_compute; auto].

Lemma C8_witness :
  DialogUmbrellaIntent utcHost plainFormat
    (intentWith "DialogUmbrellaIntent" [("City", "Seattle"); ("Date", "2015-06-20")])
  = handleCityDialogRequest
    (intentWith "DialogUmbrellaIntent" [("City", "Seattle"); ("Date", "2015-06-20")])
  /\ DialogUmbrellaIntent utcHost plainFormat
    (intentWith "DialogUmbrellaIntent" [("Date", "2015-06-20")])
  = handleDateDialogRequest utcHost plainFormat
    (intentWith "DialogUmbrellaIntent" [("Date", "2015-06-20")])
  /\ DialogUmbrellaIntent utcHost plainFormat (intentWith "DialogUmbrellaIntent" [])
  = handleNoSlotDialogRequest (intentWith "DialogUmbrellaIntent" []).
Proof.
  split; [|split].
  - apply (proj1 (C8_dialog_dispatch_priority utcHost plainFormat _) "Seattle").
    slot_filled.
  - apply (proj1 (proj2 (C8_dialog_dispatch_priority utcHost plainFormat _)) "2015-06-20").
    + slot_unfilled.
    + slot_filled.
  - apply (proj2 (proj2 (C8_dialog_dispatch_priority utcHost plainFormat _))).
    + slot_unfilled.
    + slot_unfilled.
Defined.

(* ===================================================================== *)
(** ** What the location lookup returns, and what its callers make of it *)
(* ===================================================================== *)

(** C10. [getLocationFromIntent] reads the slot named [location] and
    returns its raw string, or [undefined] when that slot is absent or
    empty; its result never has a truthy [error] property.  With a
    non-empty [location] value the [.error] test of both callers is false:
    the one-shot handler goes on to the (silent) final request and the
    city step goes on to the date question or to the final answer, so no
    failure is ever reported.  With the [location] slot absent or empty
    both callers throw a TypeError on reading [.error] of [undefined],
    and so does a dialog turn that a filled [City] slot sent to the city
    step. *)
Theorem C10_location_is_raw_string_or_undefined host fmt intent assignDefault w :
  (forall e, Get (getLocationFromIntent intent assignDefault) "error" = inl e ->
     ToBoolean e = false)
  /\ (forall v, filled intent "location" v ->
       getLocationFromIntent intent assignDefault = VStr v
       /\ Get (VStr v) "error" = inl VUndefined
       /\ handleOneshotUmbrellaRequest host intent w = (Normal tt, w)
       /\ handleCityDialogRequest intent w =
            if stored w "date"
            then (Throw (ReferenceError "getFinalTideResponse"), w)
            else (Normal tt,
                  {| attributes := <["city" := VStr v]> (attributes w);
                     responses := responses w ++
                       [Ask "For which date?"
                            "For which date would you like tide information for undefined?"] |}))
  /\ (unfilled intent "location" ->
       getLocationFromIntent intent assignDefault = VUndefined
       /\ handleOneshotUmbrellaRequest host intent w
          = (Throw (TypeError VUndefined "error"), w)
       /\ handleCityDialogRequest intent w = (Throw (TypeError VUndefined "error"), w)
       /\ (forall c, filled intent "City" c ->
             DialogUmbrellaIntent host fmt intent w
             = (Throw (TypeError VUndefined "error"), w))).
Proof.
  split; [|split].
  - intros e. destruct (filled_or_unfilled intent "location") as [[v H]|H].
    + rewrite (getLocationFromIntent_filled _ assignDefault _ H). simpl.
      intros [= <-]. reflexivity.
    + rewrite (getLocationFromIntent_unfilled _ assignDefault H). discriminate.
  - intros v H. repeat split.
    + now apply getLocationFromIntent_filled.
    + now apply handleOneshotUmbrellaRequest_located with v.
    + now apply handleCityDialogRequest_located.
  - intros H. repeat split.
    + now apply getLocationFromIntent_unfilled.
    + now apply handleOneshotUmbrellaRequest_unlocated.
    + now apply handleCityDialogRequest_unlocated.
    + intros c HC. rewrite (DialogUmbrellaIntent_city _ _ _ _ HC).
      now apply handleCityDialogRequest_unlocated.
Qed.

Lemma C10_witness :
  getLocationFromIntent
    (intentWith "OneShotUmbrellaIntent" [("location", "Exeter")]) true = VStr "Exeter"
  /\ DialogUmbrellaIntent utcHost plainFormat
       (intentWith "DialogUmbrellaIntent" [("City", "Seattle")]) emptySession
     = (Throw (TypeError VUndefined "error"), emptySession).
Proof.
  split.
  - apply (proj1 (proj2 (C10_location_is_raw_string_or_undefined
                           utcHost plainFormat _ true emptySession)) "Exeter").
    slot_filled.
  - assert (HL : unfilled (intentWith "DialogUmbrellaIntent" [("City", "Seattle")])
                           "location") by slot_unfilled.
    destruct (proj2 (proj2 (C10_location_is_raw_string_or_undefined
                              utcHost plainFormat _ false emptySession)) HL)
      as (_ & _ & _ & HCity).
    apply (HCity "Seattle"). slot_filled.
Defined.

(* ===================================================================== *)
(** ** The turn without slot values *)
(* ===================================================================== *)

(** C3, as the code has it.  A dialog turn whose City and Date slots are
    both absent or empty leaves the session attributes as they were; and
    when the session already holds a city, it answers with the
    day-of-the-week prompt, that is, it asks again for the date. *)
Theorem C3_no_slot_turn_keeps_session host fmt intent w :
  unfilled intent "City" -> unfilled intent "Date" ->
  attributes (DialogUmbrellaIntent host fmt intent w).2 = attributes w
  /\ (stored w "city" = true ->
      DialogUmbrellaIntent host fmt intent w
      = (Normal tt, answered w (Ask dayOfWeekPrompt dayOfWeekPrompt))).
Proof.
  intros HC HD. rewrite (DialogUmbrellaIntent_noSlot _ _ _ HC HD).
  rewrite handleNoSlotDialogRequest_run. split.
  - destruct (stored w "city"); reflexivity.
  - intros ->. reflexivity.
Qed.

Lemma C3_witness :
  attributes (DialogUmbrellaIntent utcHost plainFormat
                (intentWith "DialogUmbrellaIntent" [])
                (sessionWith "city" (VStr "Exeter"))).2
  = attributes (sessionWith "city" (VStr "Exeter"))
  /\ DialogUmbrellaIntent utcHost plainFormat
       (intentWith "DialogUmbrellaIntent" []) (sessionWith "city" (VStr "Exeter"))
     = (Normal tt, answered (sessionWith "city" (VStr "Exeter"))
                            (Ask dayOfWeekPrompt dayOfWeekPrompt)).
Proof.
  assert (HC : unfilled (intentWith "DialogUmbrellaIntent" []) "City") by slot_unfilled.
  assert (HD : unfilled (intentWith "DialogUmbrellaIntent" []) "Date") by slot_unfilled.
  split.
  - exact (proj1 (C3_no_slot_turn_keeps_session utcHost plainFormat _
                    (sessionWith "city" (VStr "Exeter")) HC HD)).
  - apply (proj2 (C3_no_slot_turn_keeps_session utcHost plainFormat _
                    (sessionWith "city" (VStr "Exeter")) HC HD)).
    vm_compute. reflexivity.
Defined.

(** The claim as written fails when the session holds a city: no slot
    carries a value, and the one answer is the day-of-the-week prompt,
    which does not speak of a city. *)
Lemma C3_counterexample :
  unfilled (intentWith "DialogUmbrellaIntent" []) "City"
  /\ unfilled (intentWith "DialogUmbrellaIntent" []) "Date"
  /\ DialogUmbrellaIntent utcHost plainFormat
       (intentWith "DialogUmbrellaIntent" []) (sessionWith "city" (VStr "Exeter"))
     = (Normal tt, answered (sessionWith "city" (VStr "Exeter"))
                            (Ask dayOfWeekPrompt dayOfWeekPrompt))
  /\ mentions "city" dayOfWeekPrompt = false
  /\ mentions "City" dayOfWeekPrompt = false
  /\ mentions "day of the week" dayOfWeekPrompt = true.
Proof.
  split; [slot_unfilled|]. split; [slot_unfilled|]. split; [|repeat split].
  rewrite DialogUmbrellaIntent_noSlot by slot_unfilled.
  rewrite handleNoSlotDialogRequest_run. reflexivity.
Qed.

(* ===================================================================== *)
(** ** Turns on which the handlers miss what their comments announce *)
(* ===================================================================== *)

(** C1, at two turns with exactly one of city and date missing.  A turn
    that brings a city in the [City] slot (the date is not known yet)
    throws a TypeError instead of asking for the date, because the city
    step reads the [location] slot; and a turn without slot values in a
    session that holds a date (the city is not known yet) throws a
    ReferenceError instead of asking for the city, because
    [handleSupportedCitiesRequest] is declared nowhere.  Neither turn
    records an answer. *)
Theorem C1_dialog_turns_without_prompt host fmt :
  DialogUmbrellaIntent host fmt
    (intentWith "DialogUmbrellaIntent" [("City", "Seattle")]) emptySession
  = (Throw (TypeError VUndefined "error"), emptySession)
  /\ DialogUmbrellaIntent host fmt
       (intentWith "DialogUmbrellaIntent" []) (sessionWith "date" today)
     = (Throw (ReferenceError "handleSupportedCitiesRequest"), sessionWith "date" today).
Proof.
  split.
  - rewrite (DialogUmbrellaIntent_city host fmt _ "Seattle") by slot_filled.
    apply handleCityDialogRequest_unlocated. slot_unfilled.
  - rewrite DialogUmbrellaIntent_noSlot by slot_unfilled.
    rewrite handleNoSlotDialogRequest_run. reflexivity.
Qed.

(** The date step with a city in the session: the final answer is asked
    of [getFinalTideResponse], which index.js does not declare. *)
Lemma handleDateDialogRequest_with_city host fmt intent w :
  stored w "city" = true ->
  handleDateDialogRequest host fmt intent w
  = (Throw (ReferenceError "getFinalTideResponse"), w).
Proof.
  intros H. destruct (getDateFromIntent_shape host fmt intent) as (d & r & E).
  rewrite (handleDateDialogRequest_run _ _ _ _ _ _ E). now rewrite H.
Qed.

(** C4, at the turn of the claim.  The session holds the city "London"
    and the turn brings the date "2015-06-20": the date step throws a
    ReferenceError on [getFinalTideResponse] and records no answer, so no
    terminal directive is produced. *)
Theorem C4_date_turn_with_stored_city_throws host fmt :
  DialogUmbrellaIntent host fmt
    (intentWith "DialogUmbrellaIntent" [("Date", "2015-06-20")])
    (sessionWith "city" (VStr "London"))
  = (Throw (ReferenceError "getFinalTideResponse"), sessionWith "city" (VStr "London")).
Proof.
  rewrite (DialogUmbrellaIntent_date host fmt _ "2015-06-20")
    by (slot_unfilled || slot_filled).
  now apply handleDateDialogRequest_with_city.
Qed.

(** C5, at the turn of the claim and at the turn without a location.
    With [location] "Nowhereville" the one-shot handler takes the string
    for a resolved location, hands it to the final request, whose body is
    empty, and returns without any answer and without touching the
    session; without a [location] value it throws a TypeError.  In
    neither case is the user asked to restate the city. *)
Theorem C5_oneshot_unknown_city_is_not_reprompted host w :
  handleOneshotUmbrellaRequest host
    (intentWith "OneShotUmbrellaIntent" [("location", "Nowhereville")]) w
  = (Normal tt, w)
  /\ handleOneshotUmbrellaRequest host (intentWith "OneShotUmbrellaIntent" []) w
     = (Throw (TypeError VUndefined "error"), w).
Proof.
  split.
  - apply handleOneshotUmbrellaRequest_located with "Nowhereville". slot_filled.
  - apply handleOneshotUmbrellaRequest_unlocated. slot_unfilled.
Qed.

(** C7, at a string no host heuristic is assumed to read.  On a host
    whose [Date.parse] gives NaN for "someday", date resolution does not
    fail: it returns a date object whose request parameter is built from
    NaN fields, and the date step of the dialog stores that object in the
    session and asks for the city instead of asking again for the date. *)
Theorem C7_unparseable_date_is_resolved fmt :
  JsDate.parse utcHost "someday" = None
  /\ getDateFromIntent utcHost fmt (intentWith "DialogUmbrellaIntent" [("Date", "someday")])
     = VObj [("displayDate", VStr (fmt None));
             ("requestDateParam", VStr "begin_date=NaNNaNNaN&range=24")]
  /\ DialogUmbrellaIntent utcHost fmt
       (intentWith "DialogUmbrellaIntent" [("Date", "someday")]) emptySession
     = (Normal tt,
        {| attributes :=
             {[ "date" := VObj [("displayDate", VStr (fmt None));
                                ("requestDateParam", VStr "begin_date=NaNNaNNaN&range=24")] ]};
           responses :=
             [Ask ("For which city would you like tide information for " +:+ fmt None +:+ "?")
                  "For which city?"] |}).
Proof.
  assert (HD : filled (intentWith "DialogUmbrellaIntent" [("Date", "someday")])
                 "Date" "someday") by slot_filled.
  assert (E := getDateFromIntent_unparseable utcHost fmt _ _ HD eq_refl).
  split; [reflexivity|]. split; [exact E|].
  rewrite (DialogUmbrellaIntent_date utcHost fmt _ "someday") by (slot_unfilled || exact HD).
  rewrite (handleDateDialogRequest_run _ _ _ _ _ _ E). rewrite E. reflexivity.
Qed.

(* ===================================================================== *)
(** ** The calendar *)
(* ===================================================================== *)

Lemma In_range lo n x : lo <= x < lo + Z.of_nat n -> In x (range lo n).
Proof.
  intros H. unfold range. apply in_map_iff. exists (Z.to_nat (x - lo)). split.
  - lia.
  - apply in_seq. lia.
Qed.

Lemma forallb_range f lo n x :
  forallb f (range lo n) = true -> lo <= x < lo + Z.of_nat n -> f x = true.
Proof.
  intros H Hx. rewrite forallb_forall in H. apply H. now apply In_range.
Qed.

(** [civilOfEra] undoes [dayOfEra] at every date of the 400 years of an
    era: checked by running both on the 146097 dates. *)
Lemma eraDateOk_all :
  forallb (fun yoe =>
    forallb (fun m =>
      forallb (fun d =>
        implb (d <=? JsDate.daysInMonth (calendarYear yoe m) m) (eraDateOk yoe m d))
        (range 1 31))
      (range 1 12))
    (range 0 400) = true.
Proof. vm_compute. reflexivity. Qed.

(** The numerals that [ToString] gives for the years 1000..9999 have four
    digits, and the padded months and days have two. *)
Lemma fourDigits_all :
  forallb (fun y => String.eqb (NumberToString (Some y)) (fourDigits y))
    (range 1000 (Z.to_nat 9000)) = true.
Proof. vm_compute. reflexivity. Qed.

Lemma twoDigits_all :
  forallb (fun n => String.eqb (padded (Some n)) (twoDigits n)) (range 1 31) = true.
Proof. vm_compute. reflexivity. Qed.

Lemma daysInMonth_le_31 y m : JsDate.daysInMonth y m <= 31.
Proof.
  unfold JsDate.daysInMonth.
  destruct (m =? 2); [destruct (JsDate.isLeapYear y); lia|].
  destruct ((m =? 4) || (m =? 6) || (m =? 9) || (m =? 11)); lia.
Qed.

(** Within an era, [civilOfEra] undoes [dayOfEra] on every date of the
    calendar. *)
Lemma eraDate_roundtrip yoe m d :
  0 <= yoe < 400 -> 1 <= m <= 12 ->
  1 <= d <= JsDate.daysInMonth (calendarYear yoe m) m ->
  0 <= JsDate.dayOfEra yoe m d < 146097
  /\ JsDate.civilOfEra (JsDate.dayOfEra yoe m d) = (yoe, m, d).
Proof.
  intros Hy Hm Hd.
  pose proof (daysInMonth_le_31 (calendarYear yoe m) m) as H31.
  pose proof (forallb_range _ 0 400 yoe eraDateOk_all ltac:(lia)) as H.
  apply (fun H => forallb_range _ 1 12 m H ltac:(lia)) in H.
  apply (fun H => forallb_range _ 1 31 d H ltac:(lia)) in H.
  destruct (d <=? JsDate.daysInMonth (calendarYear yoe m) m) eqn:E; [|lia].
  simpl in H. unfold eraDateOk in H.
  destruct (JsDate.civilOfEra (JsDate.dayOfEra yoe m d)) as [[yoe' m'] d'].
  repeat (apply andb_true_iff in H; destruct H as [H ?]).
  split; [lia|]. f_equal; [f_equal|]; lia.
Qed.

(** Leap years repeat with the era. *)
Lemma isLeapYear_era y k : JsDate.isLeapYear (y + k * 400) = JsDate.isLeapYear y.
Proof.
  unfold JsDate.isLeapYear.
  replace ((y + k * 400) mod 4) with (y mod 4)
    by (replace (y + k * 400) with (y + (k * 100) * 4) by lia; now rewrite Z_mod_plus_full).
  replace ((y + k * 400) mod 100) with (y mod 100)
    by (replace (y + k * 400) with (y + (k * 4) * 100) by lia; now rewrite Z_mod_plus_full).
  now rewrite Z_mod_plus_full.
Qed.

Lemma daysInMonth_era y k m : JsDate.daysInMonth (y + k * 400) m = JsDate.daysInMonth y m.
Proof. unfold JsDate.daysInMonth. now rewrite isLeapYear_era. Qed.

(** The date of a day number, given its era and its day within the era. *)
Lemma civilFromDays_era era doe :
  0 <= doe < 146097 ->
  JsDate.civilFromDays (era * 146097 + doe - 719468) =
    let '(yoe, m, d) := JsDate.civilOfEra doe in
    (if m <=? 2 then yoe + era * 400 + 1 else yoe + era * 400, m, d).
Proof.
  intros H. unfold JsDate.civilFromDays. cbv zeta.
  replace (era * 146097 + doe - 719468 + 719468) with (doe + era * 146097) by lia.
  rewrite Z.div_add by lia. rewrite (Z.div_small doe) by lia.
  replace (doe + era * 146097 - (0 + era) * 146097) with doe by lia.
  reflexivity.
Qed.

(** The day number of a calendar date gives the date back. *)
Lemma civilFromDays_daysFromCivil y m d :
  1 <= m <= 12 -> 1 <= d <= JsDate.daysInMonth y m ->
  JsDate.civilFromDays (JsDate.daysFromCivil y m d) = (y, m, d).
Proof.
  intros Hm Hd. unfold JsDate.daysFromCivil. cbv zeta.
  set (y' := if m <=? 2 then y - 1 else y).
  set (era := y' / 400).
  set (yoe := y' - era * 400).
  assert (Hyoe : 0 <= yoe < 400).
  { subst yoe era. pose proof (Z.div_mod y' 400 ltac:(lia)).
    pose proof (Z.mod_pos_bound y' 400 ltac:(lia)). lia. }
  assert (Hcal : calendarYear yoe m + era * 400 = y).
  { unfold calendarYear. subst yoe y'. destruct (m <=? 2); lia. }
  assert (Hd' : 1 <= d <= JsDate.daysInMonth (calendarYear yoe m) m).
  { rewrite <- (daysInMonth_era _ era), Hcal. exact Hd. }
  destruct (eraDate_roundtrip yoe m d Hyoe Hm Hd') as [Hdoe Hciv].
  rewrite civilFromDays_era by exact Hdoe. rewrite Hciv.
  f_equal. f_equal. unfold calendarYear in Hcal. destruct (m <=? 2); lia.
Qed.

(** The midnight of a day, seen from a zone at or ahead of UTC by less
    than a day, is still that day. *)
Lemma Day_local n offset :
  0 <= offset < JsDate.msPerDay -> JsDate.Day (n * JsDate.msPerDay + offset) = n.
Proof.
  intros H. unfold JsDate.Day. rewrite Z.add_comm, Z.div_add by (unfold JsDate.msPerDay; lia).
  rewrite Z.div_small by exact H. reflexivity.
Qed.

Lemma MakeDay_calendar y m d :
  1 <= m <= 12 -> JsDate.MakeDay y (m - 1) d = JsDate.daysFromCivil y m d.
Proof.
  intros Hm. unfold JsDate.MakeDay.
  rewrite (Z.div_small (m - 1) 12), (Z.mod_small (m - 1) 12) by lia.
  replace (y + 0) with y by lia. replace (m - 1 + 1) with m by lia.
  unfold JsDate.daysFromCivil, JsDate.dayOfEra. lia.
Qed.

(** A date-only string of the format is read as the UTC midnight of its
    date. *)
Lemma parse_dateOnly host s y m d :
  JsDate.parseDateOnly s = Some (y, m, d) -> 1 <= m <= 12 -> 1 <= d <= 31 ->
  JsDate.parse host s = Some (JsDate.daysFromCivil y m d * JsDate.msPerDay).
Proof.
  intros Hp Hm Hd. unfold JsDate.parse. rewrite Hp.
  replace ((1 <=? m) && (m <=? 12) && (1 <=? d) && (d <=? 31)) with true
    by (symmetry; repeat (apply andb_true_iff; split); lia).
  rewrite MakeDay_calendar by exact Hm. unfold JsDate.MakeDate. f_equal. lia.
Qed.

Section LocalFields.

Variable host : JsDate.Host.
Hypothesis ahead : forall t, 0 <= JsDate.localOffset host t < JsDate.msPerDay.

Variables y m d : Z.
Hypothesis month_ok : 1 <= m <= 12.
Hypothesis day_ok : 1 <= d <= JsDate.daysInMonth y m.

Let midnight : Z := JsDate.daysFromCivil y m d * JsDate.msPerDay.

Lemma civil_of_local_midnight :
  JsDate.civilFromDays (JsDate.Day (JsDate.LocalTime host midnight)) = (y, m, d).
Proof.
  unfold JsDate.LocalTime, midnight. rewrite Day_local by apply ahead.
  now apply civilFromDays_daysFromCivil.
Qed.

Lemma getFullYear_midnight : JsDate.getFullYear host (Some midnight) = Some y.
Proof.
  unfold JsDate.getFullYear, JsDate.YearFromTime.
  now rewrite civil_of_local_midnight.
Qed.

Lemma getMonth_midnight : JsDate.getMonth host (Some midnight) = Some (m - 1).
Proof.
  unfold JsDate.getMonth, JsDate.MonthFromTime.
  now rewrite civil_of_local_midnight.
Qed.

Lemma getDate_midnight : JsDate.getDate host (Some midnight) = Some d.
Proof.
  unfold JsDate.getDate, JsDate.DateFromTime.
  now rewrite civil_of_local_midnight.
Qed.

End LocalFields.

(* ===================================================================== *)
(** ** The request parameter of a calendar date *)
(* ===================================================================== *)

Lemma digit_bound c x : JsDate.digit c = Some x -> 0 <= x <= 9.
Proof.
  unfold JsDate.digit.
  destruct ((48 <=? Z.of_nat (nat_of_ascii c)) && (Z.of_nat (nat_of_ascii c) <=? 57)) eqn:E;
    [|discriminate].
  intros [= <-]. apply andb_true_iff in E. lia.
Qed.

Lemma number2_bound a b x : JsDate.number2 a b = Some x -> 0 <= x <= 99.
Proof.
  unfold JsDate.number2.
  destruct (JsDate.digit a) as [u|] eqn:Ea; [|discriminate].
  destruct (JsDate.digit b) as [v|] eqn:Eb; [|discriminate].
  simpl. intros [= <-]. apply digit_bound in Ea, Eb. lia.
Qed.

Lemma number4_bound a b c d x : JsDate.number4 a b c d = Some x -> 0 <= x <= 9999.
Proof.
  unfold JsDate.number4.
  destruct (JsDate.number2 a b) as [u|] eqn:Ea; [|discriminate].
  destruct (JsDate.number2 c d) as [v|] eqn:Eb; [|discriminate].
  simpl. intros [= <-]. apply number2_bound in Ea, Eb. lia.
Qed.

(** The year of a date-only string has at most four digits. *)
Lemma parseDateOnly_year s y m d :
  JsDate.parseDateOnly s = Some (y, m, d) -> 0 <= y <= 9999.
Proof.
  unfold JsDate.parseDateOnly.
  destruct (list_ascii_of_string s)
    as [|c1 [|c2 [|c3 [|c4 [|c5 [|c6 [|c7 [|c8 [|c9 [|c10 [|c11 l]]]]]]]]]]];
    try discriminate.
  - destruct (JsDate.number4 c1 c2 c3 c4) as [u|] eqn:E; [|discriminate].
    simpl. intros [= <- _ _]. now apply number4_bound in E.
  - destruct (JsDate.isHyphen c5); [|discriminate].
    destruct (JsDate.number4 c1 c2 c3 c4) as [u|] eqn:E; [|discriminate].
    destruct (JsDate.number2 c6 c7) as [v|]; [|discriminate].
    simpl. intros [= <- _ _]. now apply number4_bound in E.
  - destruct (JsDate.isHyphen c5 && JsDate.isHyphen c8); [|discriminate].
    destruct (JsDate.number4 c1 c2 c3 c4) as [u|] eqn:E; [|discriminate].
    destruct (JsDate.number2 c6 c7) as [v|]; [|discriminate].
    destruct (JsDate.number2 c9 c10) as [x|]; [|discriminate].
    simpl. intros [= <- _ _]. now apply number4_bound in E.
Qed.

Lemma NumberToString_year y :
  1000 <= y <= 9999 -> NumberToString (Some y) = fourDigits y.
Proof.
  intros H. apply String.eqb_eq.
  apply (forallb_range _ 1000 (Z.to_nat 9000) y fourDigits_all). lia.
Qed.

Lemma padded_twoDigits n : 1 <= n <= 31 -> padded (Some n) = twoDigits n.
Proof.
  intros H. apply String.eqb_eq.
  apply (forallb_range _ 1 31 n twoDigits_all). lia.
Qed.

(** On a host whose local time is at or ahead of UTC, a date-only string
    naming a date of the calendar, from the year 1000 on, resolves to the
    eight digits of that date. *)
Lemma getDateFromIntent_calendar host fmt intent s y m d :
  (forall t, 0 <= JsDate.localOffset host t < JsDate.msPerDay) ->
  filled intent "Date" s ->
  JsDate.parseDateOnly s = Some (y, m, d) ->
  1000 <= y -> 1 <= m <= 12 -> 1 <= d <= JsDate.daysInMonth y m ->
  getDateFromIntent host fmt intent =
    VObj [("displayDate",
           VStr (fmt (Some (JsDate.daysFromCivil y m d * JsDate.msPerDay))));
          ("requestDateParam",
           VStr ("begin_date=" +:+ fourDigits y +:+ twoDigits m +:+ twoDigits d
                 +:+ "&range=24"))].
Proof.
  intros Hahead HF Hp Hy Hm Hd.
  pose proof (daysInMonth_le_31 y m) as H31.
  pose proof (parseDateOnly_year _ _ _ _ Hp) as Hy4.
  unfold getDateFromIntent.
  rewrite (missing_filled _ _ _ HF), (slotValue_filled _ _ _ HF). cbv zeta.
  unfold newDate. rewrite (parse_dateOnly host s y m d Hp Hm) by lia.
  rewrite (getMonth_midnight host Hahead y m d Hm Hd).
  rewrite (getDate_midnight host Hahead y m d Hm Hd).
  rewrite (getFullYear_midnight host Hahead y m d Hm Hd).
  unfold NumberAdd. replace (m - 1 + 1) with m by lia.
  fold (padded (Some m)). fold (padded (Some d)).
  rewrite (padded_twoDigits m), (padded_twoDigits d), (NumberToString_year y) by lia.
  reflexivity.
Qed.

Lemma eight_digits y m d :
  String.length (fourDigits y +:+ twoDigits m +:+ twoDigits d) = 8%nat.
Proof. reflexivity. Qed.

(** C6, as the code has it.  On a host whose local time is at or ahead
    of UTC by less than a day (the UTC clock of AWS Lambda is one), a
    date slot in a date-only form of the ECMAScript format that names a
    calendar date of the year 1000 or later resolves to the request
    parameter "begin_date=" followed by the eight digits YYYYMMDD of
    that date, zero-padded, and by "&range=24"; the input "2015-06-20"
    gives "begin_date=20150620&range=24".  On any host, an absent or
    empty date slot resolves to today, with [displayDate] equal to
    "Today". *)
Theorem C6_request_date_param host fmt :
  (forall t, 0 <= JsDate.localOffset host t < JsDate.msPerDay) ->
  (forall intent s y m d,
      filled intent "Date" s ->
      JsDate.parseDateOnly s = Some (y, m, d) ->
      1000 <= y -> 1 <= m <= 12 -> 1 <= d <= JsDate.daysInMonth y m ->
      requestDateParam (getDateFromIntent host fmt intent)
      = inl (VStr ("begin_date=" +:+ (fourDigits y +:+ twoDigits m +:+ twoDigits d)
                   +:+ "&range=24"))
      /\ String.length (fourDigits y +:+ twoDigits m +:+ twoDigits d) = 8%nat)
  /\ (forall intent,
      filled intent "Date" "2015-06-20" ->
      requestDateParam (getDateFromIntent host fmt intent)
      = inl (VStr "begin_date=20150620&range=24"))
  /\ (forall intent,
      unfilled intent "Date" ->
      getDateFromIntent host fmt intent = today
      /\ displayDate (getDateFromIntent host fmt intent) = inl (VStr "Today")).
Proof.
  intros Hahead. split; [|split].
  - intros intent s y m d HF Hp Hy Hm Hd. split; [|reflexivity].
    rewrite (getDateFromIntent_calendar host fmt intent s y m d) by assumption.
    reflexivity.
  - intros intent HF.
    rewrite (getDateFromIntent_calendar host fmt intent "2015-06-20" 2015 6 20);
      first [assumption | reflexivity | lia | idtac].
    vm_compute. split; discriminate.
  - intros intent HU. rewrite (getDateFromIntent_unfilled _ _ _ HU). split; reflexivity.
Qed.

Lemma C6_witness :
  requestDateParam
    (getDateFromIntent utcHost plainFormat
       (intentWith "DialogUmbrellaIntent" [("Date", "2015-06-20")]))
  = inl (VStr "begin_date=20150620&range=24").
Proof.
  assert (Hahead : forall t, 0 <= JsDate.localOffset utcHost t < JsDate.msPerDay)
    by (intros t; simpl; unfold JsDate.msPerDay; lia).
  apply (proj1 (proj2 (C6_request_date_param utcHost plainFormat Hahead))).
  slot_filled.
Defined.

(** The claim as written fails on a host west of Greenwich: the string
    is read as the UTC midnight of 20 June, and the local fields of that
    instant, eight hours behind, are those of 19 June. *)
Lemma C6_counterexample :
  filled (intentWith "DialogUmbrellaIntent" [("Date", "2015-06-20")]) "Date" "2015-06-20"
  /\ JsDate.parse pacificHost "2015-06-20" = Some 1434758400000
  /\ requestDateParam
       (getDateFromIntent pacificHost plainFormat
          (intentWith "DialogUmbrellaIntent" [("Date", "2015-06-20")]))
     = inl (VStr "begin_date=20150619&range=24").
Proof.
  split; [slot_filled|]. split; vm_compute; reflexivity.
Qed.

(** Why the year 1000: an earlier year prints with fewer digits, as
    [ToString] does not pad it. *)
Lemma getDateFromIntent_year_999 :
  requestDateParam
    (getDateFromIntent utcHost plainFormat
       (intentWith "DialogUmbrellaIntent" [("Date", "0999-06-20")]))
  = inl (VStr "begin_date=9990620&range=24").
Proof. vm_compute. reflexivity. Qed.

(* ===================================================================== *)
(** ** What a dialog turn can do *)
(* ===================================================================== *)

(** The four outcomes of a dialog turn: it throws and leaves the world
    as it was; or, no date being stored, it stores a city and asks for
    the date; or, no city being stored, it stores a date and asks for the
    city; or, a city being stored, it asks again for the date. *)
Lemma DialogUmbrellaIntent_outcomes host fmt intent w :
  let r := DialogUmbrellaIntent host fmt intent w in
  (exists e, r = (Throw e, w)
             /\ In e [TypeError VUndefined "error";
                      ReferenceError "getFinalTideResponse";
                      ReferenceError "handleSupportedCitiesRequest"])
  \/ (stored w "date" = false /\ exists v reprompt,
        v <> "" /\
        r = (Normal tt,
             {| attributes := <["city" := VStr v]> (attributes w);
                responses := responses w ++ [Ask "For which date?" reprompt] |}))
  \/ (stored w "city" = false /\ exists date speechOutput,
        ToBoolean date = true /\
        r = (Normal tt,
             {| attributes := <["date" := date]> (attributes w);
                responses := responses w ++ [Ask speechOutput "For which city?"] |}))
  \/ (stored w "city" = true /\
        r = (Normal tt, answered w (Ask dayOfWeekPrompt dayOfWeekPrompt))).
Proof.
  cbv zeta.
  destruct (filled_or_unfilled intent "City") as [[c HC]|HC].
  - rewrite (DialogUmbrellaIntent_city _ _ _ _ HC).
    destruct (filled_or_unfilled intent "location") as [[l HL]|HL].
    + rewrite (handleCityDialogRequest_located _ _ _ HL).
      destruct (stored w "date") eqn:E.
      * left. eexists. split; [reflexivity|]. simpl. auto.
      * right. left. split; [reflexivity|]. exists l. eexists.
        split; [|reflexivity]. now destruct HL as (_ & _ & _ & ?).
    + rewrite (handleCityDialogRequest_unlocated _ _ HL).
      left. eexists. split; [reflexivity|]. simpl. auto.
  - destruct (filled_or_unfilled intent "Date") as [[d HD]|HD].
    + rewrite (DialogUmbrellaIntent_date _ _ _ _ HC HD).
      destruct (getDateFromIntent_shape host fmt intent) as (dd & rp & E).
      rewrite (handleDateDialogRequest_run _ _ _ _ _ _ E).
      destruct (stored w "city") eqn:Ec.
      * left. eexists. split; [reflexivity|]. simpl. auto.
      * right. right. left. split; [reflexivity|].
        exists (getDateFromIntent host fmt intent). eexists.
        split; [apply getDateFromIntent_truthy|reflexivity].
    + rewrite (DialogUmbrellaIntent_noSlot _ _ _ HC HD), handleNoSlotDialogRequest_run.
      destruct (stored w "city") eqn:Ec.
      * right. right. right. split; reflexivity.
      * left. eexists. split; [reflexivity|]. simpl. auto.
Qed.

Ltac dialog_outcomes host fmt intent w :=
  let e := fresh "e" in let He := fresh "He" in let Hin := fresh "Hin" in
  let v := fresh "v" in let rp := fresh "reprompt" in let Hv := fresh "Hv" in
  let Hs := fresh "Hstored" in let dv := fresh "date" in let sp := fresh "speechOutput" in
  destruct (DialogUmbrellaIntent_outcomes host fmt intent w)
    as [(e & He & Hin)|[(Hs & v & rp & Hv & He)|[(Hs & dv & sp & Hv & He)|(Hs & He)]]];
  cbv zeta in He; rewrite He.

(** The answers of one dialog turn: at most one, and no tell. *)
Lemma dialog_turn_asks_at_most_once_aux host fmt intent w :
  exists asked,
    responses (DialogUmbrellaIntent host fmt intent w).2 = (responses w ++ asked)%list
    /\ (length asked <= 1)%nat
    /\ Forall (fun d => shouldEndSession d = false) asked.
Proof.
  dialog_outcomes host fmt intent w; simpl.
  - exists []. rewrite app_nil_r. split; [reflexivity|]. split; [simpl; lia|constructor].
  - eexists. split; [reflexivity|]. split; [simpl; lia|repeat constructor].
  - eexists. split; [reflexivity|]. split; [simpl; lia|repeat constructor].
  - eexists. split; [reflexivity|]. split; [simpl; lia|repeat constructor].
Qed.

(** X1. A dialog turn records at most one answer, and that answer is
    never terminal: when the turn completes it has asked exactly one
    question, and when it throws it has recorded nothing. *)
Theorem dialog_turn_asks_at_most_once host fmt intent w :
  exists asked,
    responses (DialogUmbrellaIntent host fmt intent w).2 = (responses w ++ asked)%list
    /\ Forall (fun d => shouldEndSession d = false) asked
    /\ match (DialogUmbrellaIntent host fmt intent w).1 with
       | Normal _ => exists speechOutput repromptText, asked = [Ask speechOutput repromptText]
       | Throw _ => asked = []
       end.
Proof.
  dialog_outcomes host fmt intent w; simpl.
  - exists []. rewrite app_nil_r. auto.
  - eexists. split; [reflexivity|]. split; [repeat constructor|eauto].
  - eexists. split; [reflexivity|]. split; [repeat constructor|eauto].
  - eexists. split; [reflexivity|]. split; [repeat constructor|eauto].
Qed.

(** X2. A dialog turn that throws has written nothing: the session
    attributes and the answers are as before the turn.  The only errors
    a dialog turn can throw are the TypeError on [.error] of [undefined]
    and the ReferenceErrors on [getFinalTideResponse] and
    [handleSupportedCitiesRequest]. *)
Theorem dialog_turn_throw_writes_nothing host fmt intent w e :
  (DialogUmbrellaIntent host fmt intent w).1 = Throw e ->
  (DialogUmbrellaIntent host fmt intent w).2 = w
  /\ In e [TypeError VUndefined "error";
           ReferenceError "getFinalTideResponse";
           ReferenceError "handleSupportedCitiesRequest"].
Proof.
  dialog_outcomes host fmt intent w; simpl; try discriminate.
  intros [= <-]. auto.
Qed.

Lemma dialog_turn_throw_writes_nothing_witness :
  (DialogUmbrellaIntent utcHost plainFormat
     (intentWith "DialogUmbrellaIntent" [("Date", "2015-06-20")])
     (sessionWith "city" (VStr "London"))).2
  = sessionWith "city" (VStr "London").
Proof.
  apply (dialog_turn_throw_writes_nothing utcHost plainFormat _ _
           (ReferenceError "getFinalTideResponse")).
  vm_compute. reflexivity.
Defined.

(** X3. A dialog turn writes at most one session attribute: nothing
    but [city] and [date] is ever written, never both in one turn; [city]
    is written only when no date is stored, and [date] only when no city
    is stored, and what is written is truthy. *)
Theorem dialog_turn_writes_one_attribute host fmt intent w :
  let w' := (DialogUmbrellaIntent host fmt intent w).2 in
  (forall key, key <> "city" -> key <> "date" ->
     attributes w' !! key = attributes w !! key)
  /\ (attributes w' !! "city" = attributes w !! "city"
      \/ attributes w' !! "date" = attributes w !! "date")
  /\ (attributes w' !! "city" <> attributes w !! "city" ->
      stored w "date" = false /\ stored w' "city" = true)
  /\ (attributes w' !! "date" <> attributes w !! "date" ->
      stored w "city" = false /\ stored w' "date" = true).
Proof.
  cbv zeta. dialog_outcomes host fmt intent w; simpl;
    (split; [|split; [|split]]).
  - auto.
  - auto.
  - congruence.
  - congruence.
  - intros key Hc _. now rewrite lookup_insert_ne.
  - right. now rewrite lookup_insert_ne.
  - intros _. split; [assumption|].
    unfold stored. simpl. rewrite lookup_insert_eq. simpl.
    now rewrite eqb_empty_false.
  - intros H. elim H. now rewrite lookup_insert_ne.
  - intros key _ Hd. now rewrite lookup_insert_ne.
  - left. now rewrite lookup_insert_ne.
  - intros H. elim H. now rewrite lookup_insert_ne.
  - intros _. split; [assumption|].
    unfold stored. simpl. now rewrite lookup_insert_eq.
  - auto.
  - auto.
  - congruence.
  - congruence.
Qed.

(* ===================================================================== *)
(** ** Runs of dialog turns *)
(* ===================================================================== *)

Lemma undecided_turn host fmt intent w :
  undecided w -> undecided (DialogUmbrellaIntent host fmt intent w).2.
Proof.
  intros [Hboth Hasks]. unfold undecided.
  dialog_outcomes host fmt intent w; simpl.
  - now split.
  - split.
    + unfold stored in *. simpl.
      rewrite (lookup_insert_ne (attributes w) "city" "date") by done.
      rewrite Hstored. apply andb_false_r.
    + apply Forall_app. split; [assumption|repeat constructor].
  - split.
    + unfold stored in *. simpl.
      rewrite (lookup_insert_ne (attributes w) "date" "city") by done.
      now rewrite Hstored.
    + apply Forall_app. split; [assumption|repeat constructor].
  - split; [assumption|].
    apply Forall_app. split; [assumption|repeat constructor].
Qed.

(** X4. However many dialog turns follow one another, a session in which
    city and date are not both stored stays so, and no terminal directive
    is ever recorded: the dialog never gets to the final answer. *)
Theorem dialog_never_reaches_an_answer host fmt intents w :
  undecided w -> undecided (dialogTurns host fmt intents w).
Proof.
  unfold dialogTurns. revert w.
  induction intents as [|intent intents IH]; intros w H; simpl.
  - exact H.
  - apply IH. now apply undecided_turn.
Qed.

Lemma dialog_never_reaches_an_answer_witness :
  undecided
    (dialogTurns utcHost plainFormat
       [intentWith "DialogUmbrellaIntent" [("Date", "2015-06-20")];
        intentWith "DialogUmbrellaIntent" [("City", "Exeter"); ("location", "Exeter")];
        intentWith "DialogUmbrellaIntent" []]
       emptySession).
Proof.
  apply dialog_never_reaches_an_answer.
  split; [reflexivity|constructor].
Defined.

(* ===================================================================== *)
(** ** The table of intent handlers *)
(* ===================================================================== *)

(** X5. No handler in the table of index.js ever records a terminal
    directive: whatever the intent and the session, a handler records at
    most one answer and that answer is an ask; and only the dialog intent
    writes session attributes. *)
Theorem no_intent_handler_tells host fmt intentName handler intent w :
  intentHandlers host fmt intentName = Some handler ->
  (exists asked,
     responses (handler intent w).2 = (responses w ++ asked)%list
     /\ (length asked <= 1)%nat
     /\ Forall (fun d => shouldEndSession d = false) asked)
  /\ (intentName <> "DialogUmbrellaIntent" ->
      attributes (handler intent w).2 = attributes w).
Proof.
  unfold intentHandlers.
  destruct (String.eqb intentName "OneShotUmbrellaIntent") eqn:E1.
  { intros [= <-]. split; [|intros _].
    - exists []. rewrite app_nil_r. split; [|split; [simpl; lia|constructor]].
      destruct (filled_or_unfilled intent "location") as [[l HL]|HL].
      + now rewrite (handleOneshotUmbrellaRequest_located _ _ _ _ HL).
      + now rewrite (handleOneshotUmbrellaRequest_unlocated _ _ _ HL).
    - destruct (filled_or_unfilled intent "location") as [[l HL]|HL].
      + now rewrite (handleOneshotUmbrellaRequest_located _ _ _ _ HL).
      + now rewrite (handleOneshotUmbrellaRequest_unlocated _ _ _ HL). }
  destruct (String.eqb intentName "DialogUmbrellaIntent") eqn:E2.
  { intros [= <-]. apply String.eqb_eq in E2. split; [|congruence].
    destruct (dialog_turn_asks_at_most_once_aux host fmt intent w) as (asked & H1 & H2 & H3).
    exists asked. auto. }
  destruct (String.eqb intentName "SupportedCitiesIntent") eqn:E3.
  { intros [= <-]. split; [|reflexivity].
    exists []. rewrite app_nil_r. split; [reflexivity|]. split; [simpl; lia|constructor]. }
  destruct (String.eqb intentName "HelpIntent") eqn:E4; [|discriminate].
  intros [= <-]. split; [|reflexivity].
  eexists. split; [reflexivity|]. split; [simpl; lia|repeat constructor].
Qed.

Lemma no_intent_handler_tells_witness :
  (exists asked,
     responses (handleHelpRequest (sessionWith "city" (VStr "Exeter"))).2
     = (responses (sessionWith "city" (VStr "Exeter")) ++ asked)%list
     /\ (length asked <= 1)%nat
     /\ Forall (fun d => shouldEndSession d = false) asked)
  /\ ("HelpIntent" <> "DialogUmbrellaIntent" ->
      attributes (handleHelpRequest (sessionWith "city" (VStr "Exeter"))).2
      = attributes (sessionWith "city" (VStr "Exeter"))).
Proof.
  apply (no_intent_handler_tells utcHost plainFormat "HelpIntent"
           (fun _ => handleHelpRequest) (intentWith "HelpIntent" [])
           (sessionWith "city" (VStr "Exeter"))).
  reflexivity.
Defined.

(* ===================================================================== *)
(** ** The date step, whatever the slot holds *)
(* ===================================================================== *)

(** X6. Whatever the Date slot holds (nothing, the empty string, a
    string that is no date), the date step never answers that it did not
    understand the date: with a city stored it throws the ReferenceError
    on [getFinalTideResponse] and writes nothing; without one it stores
    the date object that [getDateFromIntent] built and asks for the city,
    naming the display text of that object. *)
Theorem date_step_never_reprompts host fmt intent w :
  exists display request,
    getDateFromIntent host fmt intent
    = VObj [("displayDate", VStr display); ("requestDateParam", VStr request)]
    /\ handleDateDialogRequest host fmt intent w =
       if stored w "city"
       then (Throw (ReferenceError "getFinalTideResponse"), w)
       else (Normal tt,
             {| attributes :=
                  <["date" := VObj [("displayDate", VStr display);
                                    ("requestDateParam", VStr request)]]> (attributes w);
                responses := responses w ++
                  [Ask ("For which city would you like tide information for "
                        +:+ display +:+ "?")
                       "For which city?"] |}).
Proof.
  destruct (getDateFromIntent_shape host fmt intent) as (display & request & E).
  exists display, request. split; [exact E|].
  rewrite (handleDateDialogRequest_run _ _ _ _ _ _ E). now rewrite E.
Qed.

(* ===================================================================== *)
(** ** The request parameter on every host *)
(* ===================================================================== *)

Lemma forallFrom_spec n : forall lo f x,
  forallFrom n lo f = true -> lo <= x < lo + Z.of_nat n -> f x = true.
Proof.
  induction n as [|n IH]; intros lo f x H Hx; [lia|].
  simpl in H. apply andb_true_iff in H. destruct H as [H0 H].
  destruct (Z.eq_dec x lo) as [->|Hne]; [exact H0|].
  apply (IH (lo + 1)); [exact H|lia].
Qed.

Lemma eraFieldsOk_all :
  forallFrom (Z.to_nat 146097) 0 eraFieldsOk = true.
Proof. vm_compute. reflexivity. Qed.

(** Whatever the day number, the month of its date is in 1..12 and the
    day of the month in 1..31. *)
Lemma civilFromDays_fields z :
  1 <= (JsDate.civilFromDays z).1.2 <= 12 /\ 1 <= (JsDate.civilFromDays z).2 <= 31.
Proof.
  unfold JsDate.civilFromDays. cbv zeta.
  set (z' := z + 719468).
  set (doe := z' - z' / 146097 * 146097).
  assert (Hdoe : 0 <= doe < 146097).
  { subst doe. pose proof (Z.div_mod z' 146097 ltac:(lia)).
    pose proof (Z.mod_pos_bound z' 146097 ltac:(lia)). lia. }
  pose proof (forallFrom_spec (Z.to_nat 146097) 0 _ doe eraFieldsOk_all ltac:(lia)) as H.
  unfold eraFieldsOk in H.
  destruct (JsDate.civilOfEra doe) as [[yoe m] d]. simpl.
  repeat (apply andb_true_iff in H; destruct H as [H ?]). lia.
Qed.

(** X7. On every host, whatever its time zone, a Date slot that the
    host parses to an instant whose local year is in 1000..9999 resolves
    to "begin_date=" followed by the eight digits of the local calendar
    date of that instant (four of the year, two of the month, two of the
    day, zero-padded) and by "&range=24". *)
Theorem requestDateParam_is_local_date host fmt intent s t :
  filled intent "Date" s ->
  JsDate.parse host s = Some t ->
  1000 <= JsDate.YearFromTime (JsDate.LocalTime host t) <= 9999 ->
  requestDateParam (getDateFromIntent host fmt intent)
  = inl (VStr ("begin_date="
               +:+ fourDigits (JsDate.YearFromTime (JsDate.LocalTime host t))
               +:+ twoDigits (JsDate.MonthFromTime (JsDate.LocalTime host t) + 1)
               +:+ twoDigits (JsDate.DateFromTime (JsDate.LocalTime host t))
               +:+ "&range=24")).
Proof.
  intros HF Hp Hy.
  destruct (civilFromDays_fields (JsDate.Day (JsDate.LocalTime host t))) as [Hm Hd].
  unfold getDateFromIntent.
  rewrite (missing_filled _ _ _ HF), (slotValue_filled _ _ _ HF). cbv zeta.
  unfold newDate. rewrite Hp.
  unfold JsDate.getMonth, JsDate.getDate, JsDate.getFullYear, NumberAdd.
  fold (padded (Some (JsDate.MonthFromTime (JsDate.LocalTime host t) + 1))).
  fold (padded (Some (JsDate.DateFromTime (JsDate.LocalTime host t)))).
  rewrite padded_twoDigits by (unfold JsDate.MonthFromTime; lia).
  rewrite padded_twoDigits by (unfold JsDate.DateFromTime; lia).
  rewrite NumberToString_year by exact Hy.
  reflexivity.
Qed.

Lemma requestDateParam_is_local_date_witness :
  requestDateParam
    (getDateFromIntent pacificHost plainFormat
       (intentWith "DialogUmbrellaIntent" [("Date", "2016-01-01")]))
  = inl (VStr "begin_date=20151231&range=24").
Proof.
  apply (requestDateParam_is_local_date pacificHost plainFormat
           (intentWith "DialogUmbrellaIntent" [("Date", "2016-01-01")])
           "2016-01-01" 1451606400000).
  - slot_filled.
  - vm_compute. reflexivity.
  - vm_compute. split; discriminate.
Defined.

(* ===================================================================== *)
(** ** The final request and its callback *)
(* ===================================================================== *)

Lemma getFinalUmbrellaResponse_callback location date :
  getFinalUmbrellaResponse location date
  = makeDataPointRequest location date dataPointCallback.
Proof. reflexivity. Qed.


(* ===================================================================== *)
(** ** The two thresholds *)
(* ===================================================================== *)

(** X9. The umbrella rules of the two revisions are nested: whenever
    part_001 (threshold 50) says "Take an umbrella", index.js (threshold
    0.5) says so too, for every number; the converse fails, for instance
    at 0.6 and at 50, where only index.js says so. *)
#[warnings="-inexact-float"]
Theorem thresholds_nested :
  (forall rainProb,
      Part001.getUmbrellaDecisionResponse rainProb = "Take an umbrella" ->
      getUmbrellaDecisionResponse rainProb = "Take an umbrella")
  /\ getUmbrellaDecisionResponse 0.6 = "Take an umbrella"
  /\ Part001.getUmbrellaDecisionResponse 0.6 = "Don't take an umbrella"
  /\ getUmbrellaDecisionResponse 50 = "Take an umbrella"
  /\ Part001.getUmbrellaDecisionResponse 50 = "Don't take an umbrella".
Proof.
  split; [|repeat split; reflexivity].
  intros p. rewrite getUmbrellaDecisionResponse_cases.
  unfold Part001.getUmbrellaDecisionResponse.
  destruct (50 <? p)%float eqn:E50; [intros _|discriminate].
  rewrite ltb_spec in *.
  change (Prim2SF 50) with (S754_finite false 7036874417766400 (-47)) in E50.
  change (Prim2SF 0.5) with (S754_finite false 4503599627370496 (-53)).
  destruct (Prim2SF p) as [s|s| |s m e]; try discriminate.
  - destruct s; [discriminate|reflexivity].
  - destruct s; [discriminate|].
    unfold SFltb, SFcompare in *.
    destruct (Z.compare (-47) e) eqn:E1; try discriminate.
    + apply Z.compare_eq in E1. subst e. reflexivity.
    + pose proof (proj1 (Z.compare_lt_iff _ _) E1) as Hlt.
      assert (E2 : Z.compare (-53) e = Lt) by (apply (proj2 (Z.compare_lt_iff _ _)); lia).
      now rewrite E2.
Qed.

(* ===================================================================== *)
(** ** part_002: what the handler tells the host *)
(* ===================================================================== *)

Lemma Part002_handler_run event calls :
  Part002.handler event calls =
    (inl tt,
     (calls ++
      if String.eqb (Part002.requestType event) "LaunchRequest" then
        [Part002.Succeed (Some (Part002.buildResponse ∅
           (Part002.buildSpeechletResponse "Welcome"
              "Welcome to the Met Office, You can find out if you need to take an umbrella with you today by saying, Do I need an umbrella in LOCATION"
              "Please tell where you are by saying, I'M HERE" false)))]
      else if String.eqb (Part002.requestType event) "IntentRequest" then
        if String.eqb "NeedUmbrella" (name (Part002.intent event)) then
          [Part002.Succeed (Some (Part002.buildResponse ∅
             (match slots (Part002.intent event) !! "ukPlace" with
              | Some slot =>
                  Part002.buildSpeechletResponse (name (Part002.intent event))
                    ("Oooh I don't know about "
                     +:+ ToString (slotValue (Some slot)) +:+ " I'll ask Jacob")
                    "You can ask me if you need an umbrella if you like" false
              | None =>
                  Part002.buildSpeechletResponse (name (Part002.intent event))
                    "I'm not sure where you are, please tell me again"
                    "I'm not sure what your location is, you can ask me if you need to take and umbrella by saying magic words"
                    false
              end)))]
        else [Part002.Fail "Exception: Invalid intent"]
      else if String.eqb (Part002.requestType event) "SessionEndedRequest" then
        [Part002.Succeed None]
      else [])%list).
Proof.
  unfold Part002.handler, Part002.tryCatch, Part002.andThen.
  assert (Hstart : (if Part002.sessionNew event
                    then Part002.onSessionStarted else Part002.unit_ tt) calls
                   = (inl tt, calls)) by (destruct (Part002.sessionNew event); reflexivity).
  rewrite Hstart.
  destruct (String.eqb (Part002.requestType event) "LaunchRequest"); [reflexivity|].
  destruct (String.eqb (Part002.requestType event) "IntentRequest").
  - unfold Part002.onIntent.
    destruct (String.eqb "NeedUmbrella" (name (Part002.intent event))); [|reflexivity].
    unfold Part002.getNeedUmbrea.
    destruct (slots (Part002.intent event) !! "ukPlace"); reflexivity.
  - destruct (String.eqb (Part002.requestType event) "SessionEndedRequest");
      [reflexivity|].
    simpl. now rewrite app_nil_r.
Qed.

(** X10. The handler of part_002 never lets an exception out and calls
    the context at most once per event: it fails, with the text
    "Exception: Invalid intent", exactly on an IntentRequest whose intent
    is not NeedUmbrella; it makes no call at all, so that the host gets
    neither success nor failure, exactly when the request type is none of
    LaunchRequest, IntentRequest and SessionEndedRequest; otherwise it
    succeeds once. *)
Theorem Part002_handler_calls_context_at_most_once event calls :
  exists made,
    Part002.handler event calls = (inl tt, (calls ++ made)%list)
    /\ (length made <= 1)%nat
    /\ (made = [] <->
        Part002.requestType event <> "LaunchRequest"
        /\ Part002.requestType event <> "IntentRequest"
        /\ Part002.requestType event <> "SessionEndedRequest")
    /\ (forall error, In (Part002.Fail error) made <->
        Part002.requestType event = "IntentRequest"
        /\ name (Part002.intent event) <> "NeedUmbrella"
        /\ error = "Exception: Invalid intent").
Proof.
  rewrite Part002_handler_run. eexists. split; [reflexivity|].
  destruct (String.eqb (Part002.requestType event) "LaunchRequest") eqn:E1.
  { apply String.eqb_eq in E1. split; [simpl; lia|]. split.
    - split; [discriminate|]. intros (H & _). contradiction.
    - intros error. simpl. split.
      + intros [H|[]]. discriminate.
      + intros (H & _). rewrite E1 in H. discriminate. }
  apply String.eqb_neq in E1.
  destruct (String.eqb (Part002.requestType event) "IntentRequest") eqn:E2.
  { apply String.eqb_eq in E2.
    destruct (String.eqb "NeedUmbrella" (name (Part002.intent event))) eqn:E3.
    - apply String.eqb_eq in E3. split; [simpl; lia|]. split.
      + split; [discriminate|]. intros (_ & H & _). contradiction.
      + intros error. simpl. split.
        * intros [H|[]]. discriminate.
        * intros (_ & H & _). now elim H.
    - apply String.eqb_neq in E3. split; [simpl; lia|]. split.
      + split; [discriminate|]. intros (_ & H & _). contradiction.
      + intros error. simpl. split.
        * intros [[= <-]|[]]. repeat split; congruence.
        * intros (_ & _ & ->). now left. }
  apply String.eqb_neq in E2.
  destruct (String.eqb (Part002.requestType event) "SessionEndedRequest") eqn:E3.
  { apply String.eqb_eq in E3. split; [simpl; lia|]. split.
    - split; [discriminate|]. intros (_ & _ & H). contradiction.
    - intros error. simpl. split.
      + intros [H|[]]. discriminate.
      + intros (H & _). contradiction. }
  apply String.eqb_neq in E3. split; [simpl; lia|]. split.
  - split; auto.
  - intros error. simpl. split; [intros []|]. intros (H & _). contradiction.
Qed.

(** X11. Every body with which the handler of part_002 succeeds has
    version "1.0", no session attributes (what the event carried is not
    passed on), [shouldEndSession] false, plain-text speech and reprompt,
    and a simple card whose content is the speech and whose title is a
    text, each after the prefix "SessionSpeechlet - ". *)
Theorem Part002_response_envelope event body :
  In (Part002.Succeed (Some body)) (Part002.handler event []).2 ->
  Part002.version body = "1.0"
  /\ Part002.sessionAttributes body = ∅
  /\ Part002.shouldEndSession (Part002.response body) = false
  /\ Part002.type (Part002.outputSpeech (Part002.response body)) = "PlainText"
  /\ Part002.type (Part002.reprompt (Part002.response body)) = "PlainText"
  /\ Part002.cardType (Part002.card (Part002.response body)) = "Simple"
  /\ Part002.content (Part002.card (Part002.response body))
     = "SessionSpeechlet - " +:+ Part002.text (Part002.outputSpeech (Part002.response body))
  /\ exists title,
       Part002.title (Part002.card (Part002.response body)) = "SessionSpeechlet - " +:+ title.
Proof.
  rewrite Part002_handler_run. cbn [snd app].
  destruct (String.eqb (Part002.requestType event) "LaunchRequest").
  { intros [[= <-]|[]]. repeat split. now eexists. }
  destruct (String.eqb (Part002.requestType event) "IntentRequest").
  { destruct (String.eqb "NeedUmbrella" (name (Part002.intent event))).
    - intros [[= <-]|[]].
      destruct (slots (Part002.intent event) !! "ukPlace");
        repeat split; now eexists.
    - intros [H|[]]. discriminate. }
  destruct (String.eqb (Part002.requestType event) "SessionEndedRequest").
  { intros [H|[]]. discriminate. }
  intros [].
Qed.

(** X12. On a NeedUmbrella intent the speech of part_002 is decided by
    the presence of the [ukPlace] slot alone: with the slot present, the
    speech names its raw value, which is the word "undefined" when the
    slot carries no value and nothing when the value is empty; only
    without the slot does the skill say that it is not sure where the
    user is.  The card title carries the intent name. *)
Theorem Part002_need_umbrella_speech event :
  Part002.requestType event = "IntentRequest" ->
  name (Part002.intent event) = "NeedUmbrella" ->
  exists body,
    (Part002.handler event []).2 = [Part002.Succeed (Some body)]
    /\ Part002.text (Part002.outputSpeech (Part002.response body))
       = match slots (Part002.intent event) !! "ukPlace" with
         | Some slot =>
             "Oooh I don't know about "
             +:+ match value slot with Some v => v | None => "undefined" end
             +:+ " I'll ask Jacob"
         | None => "I'm not sure where you are, please tell me again"
         end
    /\ Part002.title (Part002.card (Part002.response body))
       = "SessionSpeechlet - NeedUmbrella".
Proof.
  intros Ht Hn. rewrite Part002_handler_run, Ht, Hn. simpl.
  eexists. split; [reflexivity|].
  destruct (slots (Part002.intent event) !! "ukPlace") as [slot|]; simpl.
  - split; [|reflexivity]. destruct (value slot); reflexivity.
  - split; reflexivity.
Qed.

Lemma Part002_need_umbrella_speech_witness :
  exists body,
    (Part002.handler valuelessPlaceEvent []).2 = [Part002.Succeed (Some body)]
    /\ Part002.text (Part002.outputSpeech (Part002.response body))
       = match slots (Part002.intent valuelessPlaceEvent) !! "ukPlace" with
         | Some slot =>
             "Oooh I don't know about "
             +:+ match value slot with Some v => v | None => "undefined" end
             +:+ " I'll ask Jacob"
         | None => "I'm not sure where you are, please tell me again"
         end
    /\ Part002.title (Part002.card (Part002.response body))
       = "SessionSpeechlet - NeedUmbrella".
Proof.
  apply (Part002_need_umbrella_speech valuelessPlaceEvent); reflexivity.
Defined.

Lemma Part002_response_envelope_witness :
  Part002.sessionAttributes
    (Part002.buildResponse ∅
       (Part002.buildSpeechletResponse "Welcome"
          "Welcome to the Met Office, You can find out if you need to take an umbrella with you today by saying, Do I need an umbrella in LOCATION"
          "Please tell where you are by saying, I'M HERE" false)) = ∅
  /\ In (Part002.Succeed
           (Some (Part002.buildResponse ∅
              (Part002.buildSpeechletResponse "Welcome"
                 "Welcome to the Met Office, You can find out if you need to take an umbrella with you today by saying, Do I need an umbrella in LOCATION"
                 "Please tell where you are by saying, I'M HERE" false))))
        (Part002.handler launchEvent []).2.
Proof.
  assert (H : In (Part002.Succeed
           (Some (Part002.buildResponse ∅
              (Part002.buildSpeechletResponse "Welcome"
                 "Welcome to the Met Office, You can find out if you need to take an umbrella with you today by saying, Do I need an umbrella in LOCATION"
                 "Please tell where you are by saying, I'M HERE" false))))
        (Part002.handler launchEvent []).2).
  { rewrite Part002_handler_run. left. reflexivity. }
  split; [|exact H].
  exact (proj1 (proj2 (Part002_response_envelope launchEvent _ H))).
Defined.

Lemma thresholds_nested_witness :
  getUmbrellaDecisionResponse 60 = "Take an umbrella".
Proof.
  apply (proj1 thresholds_nested 60%float). reflexivity.
Defined.

Lemma dialog_turn_writes_one_attribute_witness :
  stored emptySession "date" = false
  /\ stored
       (DialogUmbrellaIntent utcHost plainFormat
          (intentWith "DialogUmbrellaIntent" [("City", "Exeter"); ("location", "Exeter")])
          emptySession).2 "city" = true.
Proof.
  apply (proj1 (proj2 (proj2 (dialog_turn_writes_one_attribute utcHost plainFormat
           (intentWith "DialogUmbrellaIntent" [("City", "Exeter"); ("location", "Exeter")])
           emptySession)))).
  vm_compute. discriminate.
Defined.
